(** * The flight record store of [individual.py]

    A shallow embedding of the command-line utility that records flights
    (destination, race number, plane type) in a SQLite file with two tables,
    [cities] and [races], and of the properties its specification states.

    The SQLite file is modelled as a value of type [store] that the
    operations take and give back; each operation also takes a fault plan
    saying which of its calls into the driver raise [sqlite3.Error]. *)

From Stdlib Require Import ZArith Lia Ascii String.
From stdpp Require Import base option list strings gmap pretty.

(** ** Python values, exceptions and log records *)

(** The values a record of [t.Dict[str, t.Any]] holds here: the [str] and
    [int] the columns of [races] give, and [None], which stands for the
    values that accept no format specification. *)
Inductive pyval : Type :=
  | PyStr (s : string)
  | PyInt (z : Z)
  | PyNone.

(** The exceptions of the program: [sqlite3.Error] (with its subclasses) is
    what every [try] of the file catches; the others pass through. *)
Inductive exn : Type :=
  | sqlite3_Error
  | OverflowError
  | TypeError
  | ValueError
  | UnicodeEncodeError
  | AttributeError
  | SystemExit.

Inductive res (A : Type) : Type :=
  | Ok (a : A)
  | Raise (e : exn).
Arguments Ok {A} a.
Arguments Raise {A} e.

#[global] Instance res_ret : MRet res := fun _ a => Ok a.
#[global] Instance res_bind : MBind res := fun _ _ f r =>
  match r with
  | Ok a => f a
  | Raise e => Raise e
  end.

(** A record of the [logging] module: its level and its message. *)
Inductive log_record : Type :=
  | INFO (msg : string)
  | ERROR (msg : string).

Definition is_error (l : log_record) : bool :=
  match l with
  | ERROR _ => true
  | INFO _ => false
  end.

(** ** Text

    A [string] holds the bytes of a text: of an argument of the command
    line, of a literal of the source, of a cell of the file. Python reads
    such bytes as UTF-8 with the [surrogateescape] handler, as it does for
    the command line: each well-formed sequence is one character of the
    [str], and each byte that belongs to none is one lone surrogate. A
    [str] can be encoded as UTF-8, for the driver or for [stdout], when it
    holds no lone surrogate, that is, when its bytes are well-formed. The
    texts modelled are the ones that come of bytes in this way; any other
    lone surrogate in a [str] counts and fails as these do. *)

Definition byte (c : ascii) : N := N_of_ascii c.

Definition in_range (lo hi : N) (c : ascii) : bool :=
  bool_decide (lo ≤ byte c ≤ hi)%N.

Definition continuation : ascii → bool := in_range 0x80 0xBF.

(** The first two bytes of a well-formed sequence of three bytes, and of
    four: no overlong form, no surrogate, nothing above U+10FFFF. *)
Definition lead3 (b0 b1 : ascii) : bool :=
  in_range 0xE0 0xE0 b0 && in_range 0xA0 0xBF b1
  || in_range 0xE1 0xEC b0 && continuation b1
  || in_range 0xED 0xED b0 && in_range 0x80 0x9F b1
  || in_range 0xEE 0xEF b0 && continuation b1.

Definition lead4 (b0 b1 : ascii) : bool :=
  in_range 0xF0 0xF0 b0 && in_range 0x90 0xBF b1
  || in_range 0xF1 0xF3 b0 && continuation b1
  || in_range 0xF4 0xF4 b0 && in_range 0x80 0x8F b1.

(** The number of bytes of the well-formed sequence the text starts with,
    0 when it starts with none. *)
Definition utf8_sequence (s : string) : nat :=
  match s with
  | EmptyString => 0
  | String b0 s1 =>
      if in_range 0x00 0x7F b0 then 1
      else
        match s1 with
        | EmptyString => 0
        | String b1 s2 =>
            if in_range 0xC2 0xDF b0 then (if continuation b1 then 2 else 0)
            else
              match s2 with
              | EmptyString => 0
              | String b2 s3 =>
                  if lead3 b0 b1 then (if continuation b2 then 3 else 0)
                  else
                    match s3 with
                    | EmptyString => 0
                    | String b3 _ =>
                        if lead4 b0 b1 && continuation b2 && continuation b3
                        then 4 else 0
                    end
              end
        end
  end.
Arguments utf8_sequence : simpl never.

(** The characters of the [str], counted over the bytes: [skip] bytes of a
    sequence already counted are passed over. *)
Fixpoint code_points (skip : nat) (s : string) : nat :=
  match s with
  | EmptyString => 0
  | String _ s' =>
      match skip with
      | S k => code_points k s'
      | O => S (code_points (pred (utf8_sequence s)) s')
      end
  end.

Fixpoint well_formed (skip : nat) (s : string) : bool :=
  match s with
  | EmptyString => match skip with O => true | S _ => false end
  | String _ s' =>
      match skip with
      | S k => well_formed k s'
      | O =>
          match utf8_sequence s with
          | O => false
          | S n => well_formed n s'
          end
      end
  end.

(** [len(s)], and whether [s.encode('utf-8')] succeeds. *)
Definition py_len (s : string) : nat := code_points 0 s.

Definition valid_utf8 (s : string) : bool := well_formed 0 s.

Definition ascii_headed (s : string) : bool :=
  match s with
  | EmptyString => true
  | String c _ => in_range 0x00 0x7F c
  end.

Fixpoint ascii_only (s : string) : bool :=
  match s with
  | EmptyString => true
  | String c s' => in_range 0x00 0x7F c && ascii_only s'
  end.

(** ** [display_plane] *)

Fixpoint fill (n : nat) (c : ascii) : string :=
  match n with
  | O => EmptyString
  | S m => String c (fill m c)
  end.

(** Alignments of a format specification: [<], [>] and [^]. *)
Inductive align : Type := AlignLeft | AlignRight | AlignCenter.

(** Padding to a width, counted in characters: nothing is cut, and [^]
    puts the smaller half of the padding on the left. *)
Definition justify (a : align) (width : nat) (s : string) : string :=
  let pad := width - py_len s in
  match a with
  | AlignLeft => s +:+ fill pad " "
  | AlignRight => fill pad " " +:+ s
  | AlignCenter => fill (pad / 2) " " +:+ s +:+ fill (pad - pad / 2) " "
  end.

(** The limit of Python on the decimal digits of an [int] it converts to
    text ([sys.int_max_str_digits], 4300 unless the interpreter is told
    otherwise). *)
Definition int_max_str_digits : Z := 4300.

(** ['{:<30}'.format(v)] and the like: [str] and [int] accept the
    specification; an [int] of more digits than the limit raises
    [ValueError], and [None] raises [TypeError]. *)
Definition py_format (a : align) (width : nat) (v : pyval) : res string :=
  match v with
  | PyStr s => Ok (justify a width s)
  | PyInt z =>
      if bool_decide (Z.abs z < 10 ^ int_max_str_digits)%Z
      then Ok (justify a width (pretty z))
      else Raise ValueError
  | PyNone => Raise TypeError
  end.

(** [dict.get(key, default)]. *)
Definition get (d : gmap string pyval) (k : string) (dflt : pyval) : pyval :=
  default dflt (d !! k).

Definition line : string :=
  "+-" +:+ fill 4 "-" +:+ "-+-" +:+ fill 30 "-" +:+ "-+-" +:+ fill 20 "-"
       +:+ "-+-" +:+ fill 12 "-" +:+ "-+".

Definition header : string :=
  "| " +:+ justify AlignCenter 4 "No" +:+ " | "
       +:+ justify AlignCenter 30 "Destination" +:+ " | "
       +:+ justify AlignCenter 20 "Race number" +:+ " | "
       +:+ justify AlignCenter 12 "Plane type" +:+ " |".

(** The text of one row of the table, lines 34-39: the fields are formatted
    from left to right. The position [idx] is at most the length of a
    list, an [int] far below the limit on digits, so its conversion is
    written without the test. *)
Definition format_row (idx : Z) (planes : gmap string pyval) : res string :=
  c2 ← py_format AlignLeft 30 (get planes "race" (PyStr ""));
  c3 ← py_format AlignLeft 20 (get planes "number" (PyStr ""));
  c4 ← py_format AlignRight 12 (get planes "type" (PyInt 0));
  mret ("| " +:+ justify AlignRight 4 (pretty idx) +:+ " | " +:+ c2 +:+ " | "
             +:+ c3 +:+ " | " +:+ c4 +:+ " |").

(** [print(text)]: [stdout] is taken to be open and to encode as UTF-8,
    so the call raises [UnicodeEncodeError] exactly on a text that holds a
    lone surrogate. *)
Definition print (text : string) : res () :=
  if valid_utf8 text then Ok () else Raise UnicodeEncodeError.

(** What a call leaves on the console, and the exception it ends with. *)
Record console : Type := Console {
  printed : list string;
  logged : list log_record;
  raised : option exn
}.

(** The loop [for idx, planes in enumerate(staff, idx)]: the lines printed
    before the first exception stay printed. The border [line] is plain
    ASCII, and its [print] cannot fail. *)
Fixpoint print_rows (idx : Z) (staff : list (gmap string pyval))
  : list string * option exn :=
  match staff with
  | [] => ([], None)
  | planes :: rest =>
      match format_row idx planes ≫= (λ text, print text ;; mret text) with
      | Raise e => ([], Some e)
      | Ok text =>
          let '(out, r) := print_rows (idx + 1)%Z rest in
          (text :: line :: out, r)
      end
  end.

Definition display_plane (staff : list (gmap string pyval)) : console :=
  match staff with
  | [] =>
      {| printed := []; logged := [INFO "The flight list is empty."];
         raised := None |}
  | _ :: _ =>
      let '(out, r) := print_rows 1 staff in
      {| printed := line :: header :: line :: out; logged := []; raised := r |}
  end.

(** The exception the formatting of a value ends with. *)
Definition format_error (v : pyval) : option exn :=
  match v with
  | PyStr _ => None
  | PyInt z =>
      if bool_decide (Z.abs z < 10 ^ int_max_str_digits)%Z then None
      else Some ValueError
  | PyNone => Some TypeError
  end.

(** The text of a value in a cell ([None] never reaches a cell: [py_format]
    raises on it), and the text of a field of a record: the given default
    when the record has no such field. *)
Definition cell_text (v : pyval) : string :=
  match v with
  | PyStr s => s
  | PyInt z => pretty z
  | PyNone => "None"
  end.

Definition field_text (planes : gmap string pyval) (k dflt : string) : string :=
  match planes !! k with
  | Some v => cell_text v
  | None => dflt
  end.

(** The exception the row of a record ends with: the one of the first of
    its three fields, present or defaulted, that cannot be formatted, and
    otherwise [UnicodeEncodeError] when one of them is a text that cannot
    be encoded. *)
Definition display_error (planes : gmap string pyval) : option exn :=
  match format_error (get planes "race" (PyStr "")) with
  | Some e => Some e
  | None =>
      match format_error (get planes "number" (PyStr "")) with
      | Some e => Some e
      | None =>
          match format_error (get planes "type" (PyInt 0)) with
          | Some e => Some e
          | None =>
              if valid_utf8 (field_text planes "race" "")
                 && valid_utf8 (field_text planes "number" "")
                 && valid_utf8 (field_text planes "type" "0")
              then None
              else Some UnicodeEncodeError
          end
      end
  end.

(** A record [display_plane] can print: each of the three fields it reads
    is missing or holds a text that can be encoded or an integer within
    the limit on digits. *)
Definition formattable (planes : gmap string pyval) : bool :=
  match display_error planes with
  | None => true
  | Some _ => false
  end.

(** The row the specification describes for the record at position [idx]:
    a missing destination and a missing race number print as the empty
    string, a missing plane type as 0. *)
Definition expected_row (idx : Z) (planes : gmap string pyval) : string :=
  "| " +:+ justify AlignRight 4 (pretty idx) +:+ " | "
       +:+ justify AlignLeft 30 (field_text planes "race" "") +:+ " | "
       +:+ justify AlignLeft 20 (field_text planes "number" "") +:+ " | "
       +:+ justify AlignRight 12 (field_text planes "type" "0") +:+ " |".

Fixpoint expected_rows (idx : Z) (staff : list (gmap string pyval)) : list string :=
  match staff with
  | [] => []
  | planes :: rest => expected_row idx planes :: line :: expected_rows (idx + 1)%Z rest
  end.

(** ** The SQLite file

    [cities (race_id INTEGER PRIMARY KEY AUTOINCREMENT, race_name INTEGER NOT
    NULL)] and [races (race_id INTEGER PRIMARY KEY AUTOINCREMENT, race_name
    TEXT NOT NULL, number_name INTEGER NOT NULL, type_name INTEGER NOT NULL)].
    The foreign key of [races] is declared and not enforced: the program
    never turns on [PRAGMA foreign_keys]. *)

(** A table with an AUTOINCREMENT key: its rows in rowid order, and the
    largest rowid it ever held (its entry in [sqlite_sequence]). *)
Record table (R : Type) : Type := Table {
  rows : list R;
  sqlite_sequence : Z
}.
Arguments Table {R} rows sqlite_sequence.
Arguments rows {R} t.
Arguments sqlite_sequence {R} t.

Definition empty_table {R : Type} : table R :=
  {| rows := []; sqlite_sequence := 0 |}.

(** The largest rowid and the largest Python [int] the driver binds: both
    are signed 64-bit integers. *)
Definition max_rowid : Z := 2 ^ 63 - 1.

Definition int64 (z : Z) : Prop := (- 2 ^ 63 ≤ z ≤ 2 ^ 63 - 1)%Z.

#[global] Instance int64_dec (z : Z) : Decision (int64 z).
Proof. unfold int64. apply _. Defined.

(** The key AUTOINCREMENT gives a new row: one more than the largest rowid
    the table ever held, and none ([SQLITE_FULL]) once the largest possible
    rowid has been used. *)
Definition next_rowid {R : Type} (rowid : R → Z) (t : table R) : option Z :=
  let largest := foldr Z.max (sqlite_sequence t) (rowid <$> rows t) in
  if bool_decide (largest < max_rowid)%Z then Some (largest + 1)%Z else None.

(** [INSERT]: the new row goes last, under the key [next_rowid] gave. *)
Definition insert_row {R : Type} (rowid : Z) (r : R) (t : table R) : table R :=
  {| rows := rows t ++ [r]; sqlite_sequence := rowid |}.

Section RecordStore.

(** [cities.race_name] is declared INTEGER. The affinity of the column
    turns a text that reads as a number into that number when it is
    stored, and [WHERE race_name = ?] does the same to its parameter
    before it compares; a text that does not read as a number stays as it
    is. The conversion is SQLite's: [affinity] is the value a destination
    name is stored and compared as, of a type [key] with a decidable
    equality. *)
Context {key : Type} {key_eq_dec : EqDecision key}.
Variable affinity : string → key.

Record city : Type := City {
  city_race_id : Z;
  city_race_name : key
}.

Record race : Type := Race {
  race_race_id : Z;
  race_race_name : string;
  race_number_name : Z;
  race_type_name : Z
}.

(** The file: each table is there or not. A file that does not exist and
    a database without tables are the same [absent] store, as
    [sqlite3.connect] creates the file. *)
Record store : Type := Store {
  cities : option (table city);
  races : option (table race)
}.

Definition absent : store := {| cities := None; races := None |}.

(** The names [sqlite_master] lists. *)
Definition table_names (s : store) : list string :=
  (if cities s is Some _ then ["cities"] else [])
  ++ (if races s is Some _ then ["races"] else []).

Definition city_rows (s : store) : list city :=
  from_option rows [] (cities s).

Definition race_rows (s : store) : list race :=
  from_option rows [] (races s).

(** *** The connection

    A connection sees [work], the file with the changes of its open
    transaction; [disk] is what is committed. Each call into the driver
    takes the next entry of [faults], and raises [sqlite3.Error] when it
    is [true]; a plan that has run out raises nothing. *)
Record conn : Type := Conn {
  disk : store;
  work : store;
  faults : list bool
}.

Definition db (A : Type) : Type := conn → res A * conn.

#[global] Instance db_ret : MRet db := fun _ a c => (Ok a, c).
#[global] Instance db_bind : MBind db := fun _ _ f m c =>
  match m c with
  | (Ok a, c') => f a c'
  | (Raise e, c') => (Raise e, c')
  end.

Definition raise {A : Type} (e : exn) : db A := fun c => (Raise e, c).

Definition sqlite_call : db () := fun c =>
  match faults c with
  | true :: fs => (Raise sqlite3_Error, {| disk := disk c; work := work c; faults := fs |})
  | false :: fs => (Ok (), {| disk := disk c; work := work c; faults := fs |})
  | [] => (Ok (), c)
  end.

Definition get_work : db store := fun c => (Ok (work c), c).

Definition put_work (s : store) : db () := fun c =>
  (Ok (), {| disk := disk c; work := s; faults := faults c |}).

(** [sqlite3.connect(database_path)], on a path the file system accepts:
    the path is modelled by the file it names. *)
Definition connect : db () := sqlite_call.

(** [CREATE TABLE IF NOT EXISTS cities]: no transaction is open when the
    program creates its tables, so the statement is committed at once. *)
Definition create_cities (s : store) : store :=
  match cities s with
  | Some _ => s
  | None => {| cities := Some empty_table; races := races s |}
  end.

Definition create_races (s : store) : store :=
  match races s with
  | Some _ => s
  | None => {| cities := cities s; races := Some empty_table |}
  end.

Definition autocommit (f : store → store) : db () := fun c =>
  (Ok (), {| disk := f (disk c); work := f (work c); faults := faults c |}).

Definition execute_ddl (f : store → store) : db () :=
  sqlite_call ;; autocommit f.

(** [SELECT race_id FROM cities WHERE race_name = ?] and [fetchone]: the
    statement is compiled (no such table), then its parameter is bound (a
    [str] that cannot be encoded as UTF-8 raises [UnicodeEncodeError]),
    then it runs. *)
Definition select_city (race_name : string) : db (option Z) :=
  sqlite_call ;;
  s ← get_work;
  match cities s with
  | None => raise sqlite3_Error
  | Some t =>
      if valid_utf8 race_name then
        mret (city_race_id <$>
                head (filter (λ c, city_race_name c = affinity race_name) (rows t)))
      else raise UnicodeEncodeError
  end.

(** [INSERT INTO cities (race_name) VALUES (?)] and [lastrowid]. *)
Definition insert_city (race_name : string) : db Z :=
  sqlite_call ;;
  s ← get_work;
  match cities s with
  | None => raise sqlite3_Error
  | Some t =>
      if valid_utf8 race_name then
        match next_rowid city_race_id t with
        | None => raise sqlite3_Error
        | Some rowid =>
            put_work {| cities := Some (insert_row rowid (City rowid (affinity race_name)) t);
                        races := races s |} ;;
            mret rowid
        end
      else raise UnicodeEncodeError
  end.

(** [INSERT INTO races (race_name, number_name, type_name) VALUES (?, ?, ?)]:
    the statement is compiled (no such table), then its parameters are
    bound from left to right (a [str] that cannot be encoded raises
    [UnicodeEncodeError], an [int] outside 64 bits raises [OverflowError]),
    then it runs. *)
Definition insert_race (race_name : string) (number type : Z) : db Z :=
  sqlite_call ;;
  s ← get_work;
  match races s with
  | None => raise sqlite3_Error
  | Some t =>
      if valid_utf8 race_name then
        if bool_decide (int64 number ∧ int64 type) then
          match next_rowid race_race_id t with
          | None => raise sqlite3_Error
          | Some rowid =>
              put_work {| cities := cities s;
                          races := Some (insert_row rowid (Race rowid race_name number type) t) |} ;;
              mret rowid
          end
        else raise OverflowError
      else raise UnicodeEncodeError
  end.

(** [conn.commit()]: all of the transaction or, when it fails, nothing. *)
Definition write_back : db () := fun c =>
  (Ok (), {| disk := work c; work := work c; faults := faults c |}).

Definition commit : db () := sqlite_call ;; write_back.

(** [SELECT races.race_name, races.number_name, races.type_name FROM races
    INNER JOIN cities ON cities.race_id = races.race_id]: one row for each
    pair of a row of [races] and a row of [cities] under the same key. The
    scan of a table follows its rowids, and the key compared is the rowid
    of both tables. *)
Definition join (tr : table race) (tc : table city) : list race :=
  r ← rows tr;
  (λ _, r) <$> filter (λ c, city_race_id c = race_race_id r) (rows tc).

Definition execute_join : db (list race) :=
  sqlite_call ;;
  s ← get_work;
  match races s, cities s with
  | Some tr, Some tc => mret (join tr tc)
  | _, _ => raise sqlite3_Error
  end.

(** [cursor.fetchall()]: the driver decodes the text of each row as UTF-8,
    and raises [sqlite3.OperationalError] on a text it cannot decode. *)
Definition fetchall (result : list race) : db (list race) :=
  sqlite_call ;;
  if forallb (λ r, valid_utf8 (race_race_name r)) result then mret result
  else raise sqlite3_Error.

(** *** The operations

    What a call gives: the value it returns or the exception it lets
    through, the file it leaves, and the records it logs. *)
Record outcome (A : Type) : Type := Outcome {
  returned : res A;
  file : store;
  logs : list log_record
}.
Arguments returned {A} o.
Arguments file {A} o.
Arguments logs {A} o.

(** [try: body ... except sqlite3.Error as e: logger.error(...)], on a
    connection of its own. The connection is given up when the function
    returns, and what it did not commit is rolled back: the file left is
    [disk]. [conn.close()] is taken not to fail. The text of the driver's
    exception, which follows the message of the error record, is not
    modelled. *)
Definition try_except {A : Type} (body : db A) (info : A → list log_record)
    (on_error : A) (error : string) (fs : list bool) (database_path : store)
  : outcome A :=
  match body {| disk := database_path; work := database_path; faults := fs |} with
  | (Ok a, c) => {| returned := Ok a; file := disk c; logs := info a |}
  | (Raise sqlite3_Error, c) =>
      {| returned := Ok on_error; file := disk c; logs := [ERROR error] |}
  | (Raise e, c) => {| returned := Raise e; file := disk c; logs := [] |}
  end.

(** The [try] block of [create_db], up to [conn.close()]. *)
Definition create_db_body : db () :=
  connect ;;
  execute_ddl create_cities ;;
  execute_ddl create_races.

Definition create_db : list bool → store → outcome () :=
  try_except create_db_body
    (λ _, [INFO "Database created successfully."])
    () "Error creating database: ".

(** [f"Plane added successfully: {race}, {number}, {type}"]. *)
Definition added_message (race_name : string) (number type : Z) : string :=
  "Plane added successfully: " +:+ race_name +:+ ", "
    +:+ pretty number +:+ ", " +:+ pretty type.

(** The [try] block of [add_plane], up to [conn.close()]. *)
Definition add_plane_body (race_name : string) (number type : Z) : db () :=
  connect ;;
  row ← select_city race_name;
  race_id ← (match row with
             | None => insert_city race_name
             | Some race_id => mret race_id
             end);
  insert_race race_name number type ;;
  commit.

Definition add_plane (fs : list bool) (database_path : store)
    (race_name : string) (number type : Z) : outcome () :=
  try_except (add_plane_body race_name number type)
    (λ _, [INFO (added_message race_name number type)])
    () "Error adding plane: "
    fs database_path.

(** The integer the driver reads from a cell: the cell holds 64 bits, and
    [sqlite3_column_int64] gives them as a signed integer, which is the
    integer stored for every integer the driver could store. *)
Definition column_int64 (z : Z) : Z := ((z + 2 ^ 63) mod 2 ^ 64 - 2 ^ 63)%Z.

(** The dictionary [select_allplanes] builds of a row. *)
Definition record (r : race) : gmap string pyval :=
  {[ "race" := PyStr (race_race_name r);
     "number" := PyInt (column_int64 (race_number_name r));
     "type" := PyInt (column_int64 (race_type_name r)) ]}.

(** The [try] block of [select_allplanes]. *)
Definition select_allplanes_body : db (list (gmap string pyval)) :=
  connect ;;
  result ← execute_join;
  rows ← fetchall result;
  mret (record <$> rows).

Definition select_allplanes : list bool → store → outcome (list (gmap string pyval)) :=
  try_except select_allplanes_body
    (λ _, [])
    [] "Error selecting planes: ".

(** *** [main]

    The subcommands, with the arguments [argparse] has read for them. *)
Inductive command : Type :=
  | Add (race_name : string) (number type : Z)
  | Display
  | Select.

(** What [parser.parse_args] makes of the command line. It ends the
    program with [SystemExit] on [-h] and [--version], after the text it
    prints, and on a command line it rejects (an unknown subcommand, a
    missing [-r], a number that is no [int]); it returns a namespace
    without [db] when no subcommand is given; and otherwise the namespace
    of a subcommand. *)
Inductive arguments : Type :=
  | Exits (out : list string)
  | NoSubcommand
  | Subcommand (cmd : command).

Record process : Type := Process {
  database : store;
  log : list log_record;
  stdout : list string;
  uncaught : option exn
}.

Definition exception {A : Type} (r : res A) : option exn :=
  match r with
  | Ok _ => None
  | Raise e => Some e
  end.

(** [fs1] is the fault plan of [create_db], [fs2] the one of the
    subcommand's operation. Without a subcommand the program stops at
    [args.db], before it touches the file. *)
Definition main (fs1 fs2 : list bool) (args : arguments) (db_path : store) : process :=
  match args with
  | Exits out =>
      {| database := db_path; log := []; stdout := out; uncaught := Some SystemExit |}
  | NoSubcommand =>
      {| database := db_path; log := []; stdout := [];
         uncaught := Some AttributeError |}
  | Subcommand cmd =>
      let created := create_db fs1 db_path in
      match returned created with
      | Raise e =>
          {| database := file created; log := logs created; stdout := [];
             uncaught := Some e |}
      | Ok _ =>
          match cmd with
          | Add race_name number type =>
              let added := add_plane fs2 (file created) race_name number type in
              {| database := file added; log := logs created ++ logs added;
                 stdout := []; uncaught := exception (returned added) |}
          | Display =>
              let selected := select_allplanes fs2 (file created) in
              match returned selected with
              | Raise e =>
                  {| database := file selected; log := logs created ++ logs selected;
                     stdout := []; uncaught := Some e |}
              | Ok staff =>
                  let shown := display_plane staff in
                  {| database := file selected;
                     log := logs created ++ logs selected ++ logged shown;
                     stdout := printed shown; uncaught := raised shown |}
              end
          | Select =>
              {| database := file created; log := logs created; stdout := [];
                 uncaught := None |}
          end
      end
  end.

(** *** The stores the program builds

    From a file that does not exist, by calls of [create_db] and
    [add_plane], whatever fails in them. *)
Inductive reachable : store → Prop :=
  | reachable_absent : reachable absent
  | reachable_create_db fs s :
      reachable s → reachable (file (create_db fs s))
  | reachable_add_plane fs s race_name number type :
      reachable s → reachable (file (add_plane fs s race_name number type)).

(** The rows of a table that never lost a row carry the keys 1, 2, ... in
    the order they were inserted. *)
Definition dense {R : Type} (rowid : R → Z) (t : table R) : Prop :=
  rowid <$> rows t = seqZ 1 (Z.of_nat (length (rows t)))
  ∧ sqlite_sequence t = Z.of_nat (length (rows t)).

Definition store_inv (s : store) : Prop :=
  (∀ tc, cities s = Some tc →
     dense city_race_id tc ∧ NoDup (city_race_name <$> rows tc))
  ∧ (∀ tr, races s = Some tr → dense race_race_id tr).

(** The destination rows after the lookup of [add_plane] and, when it
    finds nothing, its insert. *)
Definition get_or_create (tc : table city) (k : key) (tc' : table city) : Prop :=
  ((k ∈ city_race_name <$> rows tc) ∧ tc' = tc)
  ∨ ((k ∉ city_race_name <$> rows tc)
     ∧ (∃ rowid, next_rowid city_race_id tc = Some rowid
                 ∧ tc' = insert_row rowid (City rowid k) tc)).

(** The block of a [try] ends in the exception [e], run on the file [s]
    with the fault plan [fs]. *)
Definition raises {A : Type} (body : db A) (fs : list bool) (s : store) (e : exn) : Prop :=
  ∃ c, body {| disk := s; work := s; faults := fs |} = (Raise e, c).

(** A call failed in the storage when it logged an error; this is when
    its block ended in [sqlite3.Error] ([storage_failure_raises] below). *)
Definition storage_failure {A : Type} (o : outcome A) : Prop :=
  Exists (λ l, is_error l = true) (logs o).

(** A successful call returned and logged no error. *)
Definition successful {A : Type} (o : outcome A) : Prop :=
  exception (returned o) = None ∧ ¬ storage_failure o.

(** The store [create_db] makes of a file that does not exist, and the
    destinations of a store. *)
Definition fresh : store := file (create_db [] absent).

Definition names (s : store) : list key := city_race_name <$> city_rows s.

End RecordStore.

Arguments City {key} city_race_id city_race_name.
Arguments Store {key} cities races.
Arguments absent {key}.
Arguments returned {key A} o.
Arguments file {key A} o.
Arguments logs {key A} o.

(** The conversion on the destination names that do not read as numbers:
    SQLite stores and compares such a name as the text it is. The scenarios
    below run with it, on alphabetic names. *)
Definition as_text (race_name : string) : string := race_name.

(** The file after two flights to one destination, and a fault plan that
    lets [add_plane] connect, look the destination up and insert it, and
    fails its insert into [races]. *)
Definition two_flights : store :=
  file (add_plane as_text []
          (file (add_plane as_text [] fresh "Stavropol" 1 1)) "Stavropol" 9120 82).



(** * Properties

    ** Text *)

Lemma ascii_not_continuation (c : ascii) :
  in_range 0x00 0x7F c = true → continuation c = false.
Proof.
  unfold continuation, in_range. intros H%bool_decide_eq_true.
  apply bool_decide_eq_false. lia.
Qed.

Lemma ascii_not_lead3 (b0 c : ascii) :
  in_range 0x00 0x7F c = true → lead3 b0 c = false.
Proof.
  intros Hc. unfold lead3. rewrite (ascii_not_continuation c Hc).
  unfold in_range in *. apply bool_decide_eq_true in Hc.
  rewrite (bool_decide_eq_false_2 (160 ≤ byte c ≤ 191)%N) by lia.
  rewrite (bool_decide_eq_false_2 (128 ≤ byte c ≤ 159)%N) by lia.
  by rewrite !andb_false_r.
Qed.

Lemma ascii_not_lead4 (b0 c : ascii) :
  in_range 0x00 0x7F c = true → lead4 b0 c = false.
Proof.
  intros Hc. unfold lead4. rewrite (ascii_not_continuation c Hc).
  unfold in_range in *. apply bool_decide_eq_true in Hc.
  rewrite (bool_decide_eq_false_2 (144 ≤ byte c ≤ 191)%N) by lia.
  rewrite (bool_decide_eq_false_2 (128 ≤ byte c ≤ 143)%N) by lia.
  by rewrite !andb_false_r.
Qed.

Lemma utf8_sequence_length (s : string) : utf8_sequence s ≤ String.length s.
Proof.
  destruct s as [|b0 [|b1 [|b2 [|b3 s]]]]; unfold utf8_sequence;
    repeat case_match; simpl; lia.
Qed.

Lemma utf8_sequence_app (a b : string) (n : nat) :
  utf8_sequence a = S n → utf8_sequence (a +:+ b) = S n.
Proof.
  destruct a as [|b0 [|b1 [|b2 [|b3 a]]]]; unfold utf8_sequence; simpl;
    repeat case_match; try done.
Qed.

Lemma utf8_sequence_app_ascii (c : ascii) (a b : string) :
  ascii_headed b = true →
  utf8_sequence (String c a +:+ b) = utf8_sequence (String c a).
Proof.
  intros Hb.
  destruct a as [|b1 [|b2 [|b3 a]]]; destruct b as [|d b]; unfold utf8_sequence;
    simpl in *; try done;
    rewrite ?(ascii_not_continuation d Hb), ?(ascii_not_lead3 _ d Hb),
      ?(ascii_not_lead4 _ d Hb), ?andb_false_r;
    repeat case_match; try done.
Qed.

Lemma code_points_app_valid (a b : string) (k : nat) :
  well_formed k a = true →
  well_formed k (a +:+ b) = well_formed 0 b
  ∧ code_points k (a +:+ b) = code_points k a + code_points 0 b.
Proof.
  revert k. induction a as [|c a IH]; intros k; simpl.
  - by destruct k.
  - destruct k as [|k]; [|by apply IH].
    destruct (utf8_sequence (String c a)) as [|n] eqn:Hseq; [done|].
    change (String c (a +:+ b)) with (String c a +:+ b).
    rewrite (utf8_sequence_app _ b n Hseq). simpl. intros Ha.
    destruct (IH n Ha) as [-> ->]. done.
Qed.

Lemma code_points_app_ascii (a b : string) (k : nat) :
  ascii_headed b = true → k ≤ String.length a →
  well_formed k (a +:+ b) = well_formed k a && well_formed 0 b
  ∧ code_points k (a +:+ b) = code_points k a + code_points 0 b.
Proof.
  intros Hb. revert k. induction a as [|c a IH]; intros k Hk; simpl in *.
  - by replace k with 0 by lia.
  - destruct k as [|k]; [|apply IH; lia].
    change (String c (a +:+ b)) with (String c a +:+ b).
    rewrite (utf8_sequence_app_ascii c a b Hb).
    pose proof (utf8_sequence_length (String c a)) as Hlen. simpl in Hlen.
    destruct (utf8_sequence (String c a)) as [|n]; simpl.
    + split; [done|]. destruct (IH 0) as [_ ->]; [lia|done].
    + destruct (IH n) as [-> ->]; [lia|done].
Qed.

Lemma ascii_only_valid (s : string) :
  ascii_only s = true → valid_utf8 s = true ∧ py_len s = String.length s.
Proof.
  unfold valid_utf8, py_len. induction s as [|c s IH]; simpl; [done|].
  intros [Hc Hs]%andb_prop. unfold utf8_sequence. rewrite Hc. simpl.
  destruct (IH Hs) as [-> ->]. done.
Qed.

Lemma ascii_only_headed (s : string) : ascii_only s = true → ascii_headed s = true.
Proof. destruct s; simpl; [done|]. by intros [? _]%andb_prop. Qed.

Lemma ascii_only_app (a b : string) :
  ascii_only a = true → ascii_only b = true → ascii_only (a +:+ b) = true.
Proof. induction a; simpl; [done|]. intros [-> ?]%andb_prop ?. simpl. auto. Qed.

Lemma pretty_N_char_ascii (x : N) : in_range 0x00 0x7F (pretty_N_char x) = true.
Proof. unfold pretty_N_char. by repeat case_match. Qed.

Lemma pretty_N_go_ascii (x : N) (s : string) :
  ascii_only s = true → ascii_only (pretty_N_go x s) = true.
Proof.
  revert s. induction (N.lt_wf_0 x) as [x _ IH]; intros s Hs.
  assert (x = 0 ∨ 0 < x)%N as [->|?] by lia.
  - by rewrite pretty_N_go_0.
  - rewrite pretty_N_go_step by done. apply IH.
    { by apply N.div_lt. }
    simpl. by rewrite pretty_N_char_ascii.
Qed.

Lemma pretty_Z_ascii (z : Z) : ascii_only (pretty z) = true.
Proof.
  assert (∀ p : positive, ascii_only (pretty p) = true) as Hpos.
  { intros p. unfold pretty, pretty_positive, pretty, pretty_N.
    case_decide; [done|]. by apply pretty_N_go_ascii. }
  destruct z as [|p|p]; unfold pretty, pretty_Z; [done | apply Hpos |].
  apply ascii_only_app; [done | apply Hpos].
Qed.

Lemma length_append (s1 s2 : string) :
  String.length (s1 +:+ s2) = String.length s1 + String.length s2.
Proof. induction s1 as [|c s1 IH]; simpl; [done | by rewrite IH]. Qed.

Lemma length_fill (n : nat) (c : ascii) : String.length (fill n c) = n.
Proof. induction n as [|n IH]; simpl; [done | by rewrite IH]. Qed.

Lemma ascii_only_fill (n : nat) : ascii_only (fill n " ") = true.
Proof. induction n as [|n IH]; simpl; [done | by rewrite IH]. Qed.

Lemma ascii_headed_fill (n : nat) : ascii_headed (fill n " ") = true.
Proof. by destruct n. Qed.

Lemma valid_utf8_fill (n : nat) : valid_utf8 (fill n " ") = true.
Proof. apply ascii_only_valid, ascii_only_fill. Qed.

Lemma py_len_fill (n : nat) : py_len (fill n " ") = n.
Proof.
  destruct (ascii_only_valid _ (ascii_only_fill n)) as [_ ->]. apply length_fill.
Qed.

(** [len] and [encode] over a concatenation, when the first part is
    well-formed or the second one starts with an ASCII character: a
    sequence cut short by the end of the first part is not completed by
    the second. *)
Lemma py_len_app_valid (a b : string) :
  valid_utf8 a = true → py_len (a +:+ b) = py_len a + py_len b.
Proof. intros Ha. by destruct (code_points_app_valid a b 0 Ha). Qed.

Lemma valid_utf8_app_valid (a b : string) :
  valid_utf8 a = true → valid_utf8 (a +:+ b) = valid_utf8 b.
Proof. intros Ha. by destruct (code_points_app_valid a b 0 Ha). Qed.

Lemma py_len_app_ascii (a b : string) :
  ascii_headed b = true → py_len (a +:+ b) = py_len a + py_len b.
Proof.
  intros Hb. destruct (code_points_app_ascii a b 0 Hb) as [_ H]; [lia | done].
Qed.

Lemma valid_utf8_app_ascii (a b : string) :
  ascii_headed b = true → valid_utf8 (a +:+ b) = valid_utf8 a && valid_utf8 b.
Proof.
  intros Hb. destruct (code_points_app_ascii a b 0 Hb) as [H _]; [lia | done].
Qed.

Lemma py_len_justify (a : align) (width : nat) (s : string) :
  py_len (justify a width s) = width `max` py_len s.
Proof.
  unfold justify. destruct a.
  - rewrite py_len_app_ascii, py_len_fill by apply ascii_headed_fill. lia.
  - rewrite py_len_app_valid, py_len_fill by apply valid_utf8_fill. lia.
  - rewrite py_len_app_valid, py_len_app_ascii, !py_len_fill
      by (apply valid_utf8_fill || apply ascii_headed_fill).
    assert ((width - py_len s) / 2 ≤ width - py_len s)
      by (apply Nat.Div0.div_le_upper_bound; lia).
    lia.
Qed.

Lemma valid_utf8_justify (a : align) (width : nat) (s : string) :
  valid_utf8 (justify a width s) = valid_utf8 s.
Proof.
  unfold justify. destruct a.
  - rewrite valid_utf8_app_ascii, valid_utf8_fill by apply ascii_headed_fill.
    apply andb_true_r.
  - by rewrite valid_utf8_app_valid by apply valid_utf8_fill.
  - rewrite valid_utf8_app_valid, valid_utf8_app_ascii, valid_utf8_fill
      by (apply valid_utf8_fill || apply ascii_headed_fill).
    apply andb_true_r.
Qed.

Lemma valid_utf8_pretty (z : Z) : valid_utf8 (pretty z) = true.
Proof. apply ascii_only_valid, pretty_Z_ascii. Qed.

(** *** The rows of [display_plane] *)

Lemma py_format_cases (a : align) (width : nat) (v : pyval) :
  py_format a width v
  = match format_error v with
    | None => Ok (justify a width (cell_text v))
    | Some e => Raise e
    end.
Proof. destruct v as [s|z|]; simpl; [done | by case_bool_decide | done]. Qed.

Lemma cell_text_get (planes : gmap string pyval) (k dflt : string) :
  cell_text (get planes k (PyStr dflt)) = field_text planes k dflt.
Proof. unfold get, field_text. by destruct (planes !! k). Qed.

Lemma cell_text_get_type (planes : gmap string pyval) :
  cell_text (get planes "type" (PyInt 0)) = field_text planes "type" "0".
Proof. unfold get, field_text. by destruct (planes !! "type"). Qed.

Lemma valid_utf8_expected_row (idx : Z) (planes : gmap string pyval) :
  valid_utf8 (expected_row idx planes)
  = valid_utf8 (field_text planes "race" "")
    && valid_utf8 (field_text planes "number" "")
    && valid_utf8 (field_text planes "type" "0").
Proof.
  unfold expected_row.
  rewrite (valid_utf8_app_valid "| ") by done.
  rewrite (valid_utf8_app_valid (justify _ _ (pretty idx)))
    by (by rewrite valid_utf8_justify, valid_utf8_pretty).
  rewrite (valid_utf8_app_valid " | ") by done.
  rewrite (valid_utf8_app_ascii (justify _ 30 _)) by done.
  rewrite (valid_utf8_app_valid " | ") by done.
  rewrite (valid_utf8_app_ascii (justify _ 20 _)) by done.
  rewrite (valid_utf8_app_valid " | ") by done.
  rewrite (valid_utf8_app_ascii (justify _ 12 _)) by done.
  rewrite !valid_utf8_justify.
  change (valid_utf8 " |") with true. by rewrite andb_true_r, andb_assoc.
Qed.

Lemma py_len_expected_row (idx : Z) (planes : gmap string pyval) :
  py_len (expected_row idx planes)
  = 13 + (4 `max` py_len (pretty idx))
       + (30 `max` py_len (field_text planes "race" ""))
       + (20 `max` py_len (field_text planes "number" ""))
       + (12 `max` py_len (field_text planes "type" "0")).
Proof.
  unfold expected_row.
  rewrite (py_len_app_valid "| ") by done.
  rewrite (py_len_app_ascii (justify _ 4 _)) by done.
  rewrite (py_len_app_valid " | ") by done.
  rewrite (py_len_app_ascii (justify _ 30 _)) by done.
  rewrite (py_len_app_valid " | ") by done.
  rewrite (py_len_app_ascii (justify _ 20 _)) by done.
  rewrite (py_len_app_valid " | ") by done.
  rewrite (py_len_app_ascii (justify _ 12 _)) by done.
  rewrite !py_len_justify.
  change (py_len "| ") with 2. change (py_len " | ") with 3.
  change (py_len " |") with 2. lia.
Qed.

(** The formatting of a row alone, and with its [print]. *)
Lemma format_row_cases (idx : Z) (planes : gmap string pyval) :
  format_row idx planes
  = match format_error (get planes "race" (PyStr "")) with
    | Some e => Raise e
    | None =>
        match format_error (get planes "number" (PyStr "")) with
        | Some e => Raise e
        | None =>
            match format_error (get planes "type" (PyInt 0)) with
            | Some e => Raise e
            | None => Ok (expected_row idx planes)
            end
        end
    end.
Proof.
  unfold format_row, expected_row. rewrite !py_format_cases.
  rewrite !cell_text_get, cell_text_get_type.
  destruct (format_error (get planes "race" _)); [done|].
  destruct (format_error (get planes "number" _)); [done|].
  by destruct (format_error (get planes "type" _)).
Qed.

Lemma print_row_cases (idx : Z) (planes : gmap string pyval) :
  format_row idx planes ≫= (λ text, print text ;; mret text)
  = match display_error planes with
    | None => Ok (expected_row idx planes)
    | Some e => Raise e
    end.
Proof.
  rewrite format_row_cases. unfold display_error.
  destruct (format_error (get planes "race" _)); [done|].
  destruct (format_error (get planes "number" _)); [done|].
  destruct (format_error (get planes "type" _)); [done|].
  simpl. unfold print. rewrite valid_utf8_expected_row.
  by destruct (_ && _).
Qed.

Lemma print_rows_formattable (idx : Z) (staff : list (gmap string pyval)) :
  forallb formattable staff = true →
  print_rows idx staff = (expected_rows idx staff, None).
Proof.
  revert idx. induction staff as [|planes rest IH]; intros idx; [done|].
  cbn [forallb print_rows expected_rows]. intros [Hp Hrest]%andb_prop.
  rewrite print_row_cases. unfold formattable in Hp.
  destruct (display_error planes); [done|]. by rewrite IH.
Qed.






(** ** The record store *)

Section RecordStoreFacts.

Context {key : Type} {key_eq_dec : EqDecision key}.
Variable affinity : string → key.

Lemma sqlite_call_cases (c : conn (key:=key)) :
  ∃ fs, sqlite_call c = (Ok (), Conn (disk c) (work c) fs)
        ∨ sqlite_call c = (Raise sqlite3_Error, Conn (disk c) (work c) fs).
Proof.
  unfold sqlite_call. destruct c as [d w [|[] fs]]; simpl; eauto.
Qed.

Lemma select_city_cases (race_name : string) (c : conn) :
  ∃ fs,
    select_city affinity race_name c
      = (Raise sqlite3_Error, Conn (disk c) (work c) fs)
    ∨ (valid_utf8 race_name = false ∧ is_Some (cities (work c))
       ∧ select_city affinity race_name c
         = (Raise UnicodeEncodeError, Conn (disk c) (work c) fs))
    ∨ ∃ tc, cities (work c) = Some tc ∧ valid_utf8 race_name = true
        ∧ select_city affinity race_name c
          = (Ok (city_race_id <$>
                   head (filter (λ x, city_race_name x = affinity race_name) (rows tc))),
             Conn (disk c) (work c) fs).
Proof.
  unfold select_city, mbind, db_bind, get_work, raise, mret, db_ret.
  destruct (sqlite_call_cases c) as [fs [-> | ->]]; simpl; [|by eauto].
  destruct (cities (work c)) as [tc|]; simpl; [|by eauto].
  destruct (valid_utf8 race_name) eqn:Hv; simpl; [by eauto 7|].
  exists fs. right. left. by split_and!.
Qed.

Lemma insert_city_cases (race_name : string) (c : conn) :
  valid_utf8 race_name = true →
  ∃ fs,
    insert_city affinity race_name c
      = (Raise sqlite3_Error, Conn (disk c) (work c) fs)
    ∨ ∃ tc rowid, cities (work c) = Some tc
        ∧ next_rowid city_race_id tc = Some rowid
        ∧ insert_city affinity race_name c
          = (Ok rowid,
             Conn (disk c)
               (Store (Some (insert_row rowid (City rowid (affinity race_name)) tc))
                  (races (work c))) fs).
Proof.
  intros Hv.
  unfold insert_city, mbind, db_bind, get_work, put_work, raise, mret, db_ret.
  destruct (sqlite_call_cases c) as [fs [-> | ->]]; simpl; [|by eauto].
  destruct (cities (work c)) as [tc|]; simpl; [|by eauto].
  rewrite Hv.
  destruct (next_rowid city_race_id tc) as [rowid|] eqn:Hid; simpl; [|by eauto].
  exists fs. right. by exists tc, rowid.
Qed.

Lemma insert_race_cases (race_name : string) (number type : Z)
    (c : conn (key:=key)) :
  valid_utf8 race_name = true →
  ∃ fs,
    insert_race race_name number type c
      = (Raise sqlite3_Error, Conn (disk c) (work c) fs)
    ∨ (¬ (int64 number ∧ int64 type) ∧ is_Some (races (work c))
       ∧ insert_race race_name number type c
         = (Raise OverflowError, Conn (disk c) (work c) fs))
    ∨ ∃ tr rowid, races (work c) = Some tr
        ∧ (int64 number ∧ int64 type)
        ∧ next_rowid race_race_id tr = Some rowid
        ∧ insert_race race_name number type c
          = (Ok rowid,
             Conn (disk c)
               (Store (cities (work c))
                  (Some (insert_row rowid (Race rowid race_name number type) tr))) fs).
Proof.
  intros Hv.
  unfold insert_race, mbind, db_bind, get_work, put_work, raise, mret, db_ret.
  destruct (sqlite_call_cases c) as [fs [-> | ->]]; simpl; [|by eauto].
  destruct (races (work c)) as [tr|]; simpl; [|by eauto].
  rewrite Hv.
  case_bool_decide as Hb; simpl; [|by eauto 6].
  destruct (next_rowid race_race_id tr) as [rowid|] eqn:Hid; simpl; [|by eauto].
  exists fs. right. right. by exists tr, rowid.
Qed.

Lemma commit_cases (c : conn (key:=key)) :
  ∃ fs,
    commit c = (Raise sqlite3_Error, Conn (disk c) (work c) fs)
    ∨ commit c = (Ok (), Conn (work c) (work c) fs).
Proof.
  unfold commit, mbind, db_bind, write_back.
  destruct (sqlite_call_cases c) as [fs [-> | ->]]; simpl; eauto.
Qed.

Lemma head_filter_None {A : Type} (P : A → Prop) `{∀ x, Decision (P x)} (l : list A) :
  head (filter P l) = None ↔ Forall (λ x, ¬ P x) l.
Proof.
  induction l as [|x l IH]; simpl.
  - split; [constructor | done].
  - rewrite filter_cons. case_decide as HP; simpl.
    + split; [done | inversion 1; tauto].
    + rewrite IH. split; [by constructor | by inversion 1].
Qed.

(** The four ways the block of [add_plane] ends: nothing is committed
    unless it ends well. *)
Lemma add_plane_body_cases fs s race_name number type :
  ∃ w fs',
    add_plane_body affinity race_name number type (Conn s s fs)
      = (Raise sqlite3_Error, Conn s w fs')
    ∨ (¬ (int64 number ∧ int64 type) ∧ valid_utf8 race_name = true
       ∧ is_Some (cities s) ∧ is_Some (races s)
       ∧ add_plane_body affinity race_name number type (Conn s s fs)
         = (Raise OverflowError, Conn s w fs'))
    ∨ (valid_utf8 race_name = false ∧ is_Some (cities s)
       ∧ add_plane_body affinity race_name number type (Conn s s fs)
         = (Raise UnicodeEncodeError, Conn s w fs'))
    ∨ ∃ tc tr tc' rowid,
        cities s = Some tc ∧ races s = Some tr
        ∧ (int64 number ∧ int64 type)
        ∧ get_or_create tc (affinity race_name) tc'
        ∧ next_rowid race_race_id tr = Some rowid
        ∧ w = Store (Some tc')
                (Some (insert_row rowid (Race rowid race_name number type) tr))
        ∧ add_plane_body affinity race_name number type (Conn s s fs)
          = (Ok (), Conn w w fs').
Proof.
  unfold add_plane_body, connect, mbind, db_bind.
  destruct (sqlite_call_cases (Conn s s fs)) as [f1 [-> | ->]]; simpl; [|by eauto].
  destruct (select_city_cases race_name (Conn s s f1))
    as [f2 [-> | [(Hv & Hc & ->) | (tc & Hc & Hv & ->)]]]; simpl in *;
    [by eauto | by eauto 8 |].
  assert (∃ tc' f3,
    (match city_race_id <$>
             head (filter (λ x, city_race_name x = affinity race_name) (rows tc)) with
     | Some race_id => mret race_id
     | None => insert_city affinity race_name
     end (Conn s s f2) = (Raise sqlite3_Error, Conn s s f3))
    ∨ (get_or_create tc (affinity race_name) tc'
       ∧ ∃ race_id,
           match city_race_id <$>
                   head (filter (λ x, city_race_name x = affinity race_name) (rows tc)) with
           | Some race_id => mret race_id
           | None => insert_city affinity race_name
           end (Conn s s f2) = (Ok race_id, Conn s (Store (Some tc') (races s)) f3)))
    as (tc' & f3 & Hgoc).
  { destruct (head (filter _ (rows tc))) as [x|] eqn:Hhead; simpl.
    - exists tc, f2. right. split.
      + left. split; [|done]. apply head_Some_elem_of in Hhead.
        apply list_elem_of_filter in Hhead as [<- Hx].
        by apply list_elem_of_fmap_2.
      + exists (city_race_id x). unfold mret, db_ret. destruct s; simpl in *. by subst.
    - apply head_filter_None in Hhead.
      destruct (insert_city_cases race_name (Conn s s f2) Hv)
        as [f3 [-> | (tc0 & rowid & Hc0 & Hid & ->)]]; simpl in *.
      + exists tc, f3. by left.
      + simplify_eq. eexists _, f3. right. split; [|by eauto].
        right. split; [|by eauto].
        intros (x & Hk & Hx)%list_elem_of_fmap.
        rewrite Forall_forall in Hhead. by eapply Hhead. }
  destruct Hgoc as [-> | (Hgoc & race_id & ->)]; [by eauto|].
  set (w1 := Store (Some tc') (races s)).
  destruct (insert_race_cases race_name number type (Conn s w1 f3) Hv)
    as [f4 [-> | [(Hov & Hr & ->) | (tr & rowid & Hr & Hint & Hid & ->)]]];
    simpl in *; [by eauto | |].
  { exists w1, f4. right. left. by split_and!. }
  set (w2 := Store _ _).
  destruct (commit_cases (Conn s w2 f4)) as [f5 [-> | ->]]; simpl; [by eauto|].
  exists w2, f5. do 3 right. exists tc, tr, tc', rowid. destruct Hint. by split_and!.
Qed.

(** The four ways a call of [add_plane] ends. *)
Lemma add_plane_cases fs s race_name number type :
  let o := add_plane affinity fs s race_name number type in
  (returned o = Ok () ∧ file o = s ∧ logs o = [ERROR "Error adding plane: "])
  ∨ (returned o = Raise OverflowError ∧ file o = s ∧ logs o = []
     ∧ ¬ (int64 number ∧ int64 type))
  ∨ (returned o = Raise UnicodeEncodeError ∧ file o = s ∧ logs o = []
     ∧ valid_utf8 race_name = false)
  ∨ (returned o = Ok ()
     ∧ logs o = [INFO (added_message race_name number type)]
     ∧ ∃ tc tr tc' rowid,
         cities s = Some tc ∧ races s = Some tr
         ∧ (int64 number ∧ int64 type)
         ∧ get_or_create tc (affinity race_name) tc'
         ∧ next_rowid race_race_id tr = Some rowid
         ∧ file o = Store (Some tc')
                      (Some (insert_row rowid (Race rowid race_name number type) tr))).
Proof.
  unfold add_plane, try_except.
  destruct (add_plane_body_cases fs s race_name number type)
    as (w & fs' & [-> | [(Hov & _ & _ & _ & ->) | [(Hv & _ & ->) |
         (tc & tr & tc' & rowid & ? & ? & [??] & ? & ? & -> & ->)]]]);
    simpl.
  - left. by repeat split.
  - right. left. by repeat split.
  - right. right. left. by repeat split.
  - do 3 right. do 2 (split; [done|]). exists tc, tr, tc', rowid. by split_and!.
Qed.


Lemma execute_ddl_cases (f : store → store) (c : conn (key:=key)) :
  ∃ fs,
    execute_ddl f c = (Raise sqlite3_Error, Conn (disk c) (work c) fs)
    ∨ execute_ddl f c = (Ok (), Conn (f (disk c)) (f (work c)) fs).
Proof.
  unfold execute_ddl, mbind, db_bind, autocommit.
  destruct (sqlite_call_cases c) as [fs [-> | ->]]; simpl; eauto.
Qed.

(** The three ways the block of [create_db] ends. *)
Lemma create_db_body_cases fs (s : store (key:=key)) :
  ∃ fs',
    create_db_body (Conn s s fs) = (Raise sqlite3_Error, Conn s s fs')
    ∨ create_db_body (Conn s s fs)
      = (Raise sqlite3_Error, Conn (create_cities s) (create_cities s) fs')
    ∨ create_db_body (Conn s s fs)
      = (Ok (), Conn (create_races (create_cities s))
                  (create_races (create_cities s)) fs').
Proof.
  unfold create_db_body, connect, mbind, db_bind.
  destruct (sqlite_call_cases (Conn s s fs)) as [f1 [-> | ->]]; simpl; [|by eauto].
  destruct (execute_ddl_cases create_cities (Conn s s f1)) as [f2 [-> | ->]];
    simpl; [by eauto|].
  destruct (execute_ddl_cases create_races
              (Conn (create_cities s) (create_cities s) f2)) as [f3 [-> | ->]];
    simpl; by eauto 6.
Qed.

(** The three ways a call of [create_db] ends. *)
Lemma create_db_cases fs (s : store (key:=key)) :
  let o := create_db fs s in
  returned o = Ok ()
  ∧ ((logs o = [ERROR "Error creating database: "]
      ∧ (file o = s ∨ file o = create_cities s))
     ∨ (logs o = [INFO "Database created successfully."]
        ∧ file o = create_races (create_cities s))).
Proof.
  unfold create_db, try_except.
  destruct (create_db_body_cases fs s) as [fs' [-> | [-> | ->]]]; simpl; by eauto 6.
Qed.

(** The two ways the block of [select_allplanes] ends: it writes nothing. *)
Lemma select_allplanes_body_cases fs (s : store (key:=key)) :
  ∃ fs',
    select_allplanes_body (Conn s s fs) = (Raise sqlite3_Error, Conn s s fs')
    ∨ ∃ tr tc, races s = Some tr ∧ cities s = Some tc
        ∧ forallb (λ r, valid_utf8 (race_race_name r)) (join tr tc) = true
        ∧ select_allplanes_body (Conn s s fs)
          = (Ok (record <$> join tr tc), Conn s s fs').
Proof.
  unfold select_allplanes_body, connect,
    execute_join, fetchall, get_work, raise, mbind, db_bind, mret, db_ret.
  destruct (sqlite_call_cases (Conn s s fs)) as [f1 [-> | ->]]; simpl; [|by eauto].
  destruct (sqlite_call_cases (Conn s s f1)) as [f2 [-> | ->]]; simpl; [|by eauto].
  destruct (races s) as [tr|] eqn:Hr; simpl; [|by eauto].
  destruct (cities s) as [tc|] eqn:Hc; simpl; [|by eauto].
  destruct (sqlite_call_cases (Conn s s f2)) as [f3 [-> | ->]]; simpl; [|by eauto].
  destruct (forallb _ (join tr tc)) eqn:Hv; simpl; [|by eauto].
  exists f3. right. by exists tr, tc.
Qed.

(** The two ways a call of [select_allplanes] ends. *)
Lemma select_allplanes_cases fs (s : store (key:=key)) :
  let o := select_allplanes fs s in
  file o = s
  ∧ ((returned o = Ok [] ∧ logs o = [ERROR "Error selecting planes: "])
     ∨ (logs o = []
        ∧ ∃ tr tc, races s = Some tr ∧ cities s = Some tc
                   ∧ returned o = Ok (record <$> join tr tc)
                   ∧ forallb (λ r, valid_utf8 (race_race_name r)) (join tr tc)
                     = true)).
Proof.
  unfold select_allplanes, try_except.
  destruct (select_allplanes_body_cases fs s)
    as [fs' [-> | (tr & tc & Hr & Hc & Hv & ->)]]; simpl; [by eauto|].
  split; [done|]. right. split; [done|]. by exists tr, tc.
Qed.

(** *** Keys and the invariant of the stores the program builds *)

Lemma foldr_max_bound (a : Z) (l : list Z) :
  Forall (λ x, (x ≤ a)%Z) l → foldr Z.max a l = a.
Proof.
  induction 1 as [|x l Hx _ IH]; simpl; [done|]. rewrite IH. lia.
Qed.

Lemma next_rowid_dense {R : Type} (rowid : R → Z) (t : table R) (k : Z) :
  dense rowid t → next_rowid rowid t = Some k →
  k = (Z.of_nat (length (rows t)) + 1)%Z.
Proof.
  intros [Hrows Hseq]. unfold next_rowid. rewrite Hrows, Hseq.
  rewrite foldr_max_bound.
  - case_bool_decide; naive_solver.
  - apply Forall_seqZ. lia.
Qed.

Lemma dense_empty {R : Type} (rowid : R → Z) : dense rowid empty_table.
Proof. done. Qed.

Lemma dense_insert_row {R : Type} (rowid : R → Z) (t : table R) (k : Z) (r : R) :
  dense rowid t → next_rowid rowid t = Some k → rowid r = k →
  dense rowid (insert_row k r t).
Proof.
  intros Hd Hk Hr. pose proof (next_rowid_dense _ _ _ Hd Hk) as ->.
  destruct Hd as [Hrows Hseq]. unfold dense, insert_row. simpl.
  rewrite length_app, fmap_app, Hrows. simpl. rewrite Hr.
  replace (length (rows t) + 1) with (S (length (rows t))) by lia.
  rewrite seqZ_S. split; [|lia]. do 2 f_equal. lia.
Qed.

Lemma store_inv_absent : store_inv (absent (key:=key)).
Proof. split; intros t Ht; discriminate Ht. Qed.

Lemma store_inv_create_cities (s : store (key:=key)) :
  store_inv s → store_inv (create_cities s).
Proof.
  intros Hinv. unfold create_cities.
  destruct (cities s) as [tc|] eqn:Hcs; [done|]. destruct Hinv as [Hc Hr].
  split; simpl; [|done]. intros tc [= <-]. split; [done|]. constructor.
Qed.

Lemma store_inv_create_races (s : store (key:=key)) :
  store_inv s → store_inv (create_races s).
Proof.
  intros Hinv. unfold create_races.
  destruct (races s) as [tr|] eqn:Hrs; [done|]. destruct Hinv as [Hc Hr].
  split; simpl; [done|]. by intros tr [= <-].
Qed.

Lemma get_or_create_inv (tc tc' : table city) (k : key) :
  dense city_race_id tc → NoDup (city_race_name <$> rows tc) →
  get_or_create tc k tc' →
  dense city_race_id tc' ∧ NoDup (city_race_name <$> rows tc').
Proof.
  intros Hd Hn [[_ ->] | (Hk & rowid & Hid & ->)]; [done|]. split.
  - by apply dense_insert_row.
  - simpl. rewrite fmap_app. apply NoDup_app. split_and!; [done| |].
    + intros x Hx ->%list_elem_of_singleton. done.
    + apply NoDup_singleton.
Qed.

(** Every store the program builds has its keys 1, 2, ... in order in
    both tables, and no destination twice. *)
Lemma reachable_store_inv (s : store) : reachable affinity s → store_inv s.
Proof.
  induction 1 as [|fs s _ IH|fs s race_name number type _ IH].
  - apply store_inv_absent.
  - destruct (create_db_cases fs s) as (_ & [(_ & [-> | ->]) | (_ & ->)]);
      auto using store_inv_create_cities, store_inv_create_races.
  - destruct (add_plane_cases fs s race_name number type)
      as [(_ & -> & _) | [(_ & -> & _) | [(_ & -> & _) |
          (_ & _ & tc & tr & tc' & rowid & Hc & Hr & _ & Hg & Hid & ->)]]];
      [done..|].
    destruct IH as [IHc IHr]. destruct (IHc _ Hc) as [Hd Hn].
    split; simpl.
    + intros ? [= <-]. by eapply get_or_create_inv.
    + intros ? [= <-]. apply dense_insert_row; auto.
Qed.

(** *** The join of [select_allplanes] *)

Lemma filter_key_length {A K : Type} `{EqDecision K} (f : A → K) (l : list A) (k : K) :
  NoDup (f <$> l) →
  length (filter (λ x, f x = k) l) = if decide (k ∈ f <$> l) then 1 else 0.
Proof.
  induction l as [|x l IH]; [done|].
  rewrite fmap_cons, NoDup_cons, filter_cons. intros [Hx Hl].
  specialize (IH Hl). destruct (decide (f x = k)) as [Hk|Hk]; simpl.
  - subst k. rewrite decide_False in IH by done. rewrite IH.
    rewrite decide_True; [done | constructor].
  - rewrite IH. destruct (decide (k ∈ f <$> l)) as [Hin|Hin].
    + rewrite decide_True; [done | by constructor].
    + rewrite decide_False; [done|]. rewrite elem_of_cons. intros [?|?]; auto.
Qed.

(** Under a primary key on [cities], the join keeps each row of [races]
    once or not at all, in the order of [races]. *)
Lemma join_primary_key (tr : table race) (tc : table (city (key:=key))) :
  NoDup (city_race_id <$> rows tc) →
  join tr tc
  = filter (λ r, race_race_id r ∈ city_race_id <$> rows tc) (rows tr).
Proof.
  intros Hn. unfold join. induction (rows tr) as [|r l IH]; [done|].
  rewrite bind_cons, filter_cons, IH.
  pose proof (filter_key_length city_race_id (rows tc) (race_race_id r) Hn) as Hlen.
  destruct (filter (λ c, city_race_id c = race_race_id r) (rows tc)) as [|c [|c' l']];
    repeat case_decide; simpl in *; done.
Qed.

Lemma filter_dense_keys (l : list race) (n m : nat) :
  race_race_id <$> l = seqZ 1 (Z.of_nat m) →
  filter (λ r, race_race_id r ∈ seqZ 1 (Z.of_nat n)) l
  = filter (λ r, (race_race_id r ≤ Z.of_nat n)%Z) l.
Proof.
  intros Hl.
  assert (Forall (λ r, (1 ≤ race_race_id r)%Z) l) as Hpos.
  { apply Forall_forall. intros r Hr.
    apply (list_elem_of_fmap_2 race_race_id) in Hr.
    rewrite Hl in Hr. apply elem_of_seqZ in Hr. lia. }
  clear Hl. induction Hpos as [|r l Hr _ IH]; [done|].
  rewrite !filter_cons, IH. repeat case_decide; try done.
  - exfalso. match goal with H : _ ∈ seqZ _ _ |- _ => apply elem_of_seqZ in H end. lia.
  - exfalso. match goal with H : ¬ _ ∈ seqZ _ _ |- _ => apply H end.
    apply elem_of_seqZ. lia.
Qed.

Lemma storage_failure_error {A : Type} (o : outcome (key:=key) A) (msg : string) :
  logs o = [ERROR msg] → storage_failure o.
Proof. unfold storage_failure. intros ->. by left. Qed.

Lemma storage_failure_info {A : Type} (o : outcome (key:=key) A) (msg : string) :
  logs o = [INFO msg] → ¬ storage_failure o.
Proof.
  unfold storage_failure. intros ->. rewrite Exists_cons, Exists_nil.
  simpl. intros [?|[]]. discriminate.
Qed.

Lemma storage_failure_nil {A : Type} (o : outcome (key:=key) A) :
  logs o = [] → ¬ storage_failure o.
Proof. unfold storage_failure. intros ->. by intros ?%Exists_nil. Qed.

(** An operation that logs no error of its own logs one exactly when its
    block ends in [sqlite3.Error]. *)
Lemma storage_failure_raises {A : Type} (body : db (key:=key) A)
    (info : A → list log_record) (on_error : A) (error : string)
    (fs : list bool) (s : store) :
  (∀ a, Forall (λ l, is_error l = false) (info a)) →
  storage_failure (try_except body info on_error error fs s)
  ↔ raises body fs s sqlite3_Error.
Proof.
  intros Hinfo. unfold storage_failure, raises, try_except.
  destruct (body _) as [[a|e] c]; simpl.
  - split; [|by intros [? ?]]. intros Hex. exfalso.
    apply Exists_exists in Hex as (l & Hl & Herr).
    specialize (Hinfo a). rewrite Forall_forall in Hinfo.
    specialize (Hinfo l Hl). congruence.
  - destruct e; simpl;
      try (split; [by intros ?%Exists_nil | by intros [? ?]]).
    split; [by eauto | by left].
Qed.

(** C2: when the query of [select_allplanes] succeeds on a file with both
    tables and a primary key on [cities], what it returns is, in the order
    of [races], the record of each row of [races] whose own [race_id] is
    the [race_id] of a row of [cities], and of no other row; on a store
    the program built those are the rows of [races] whose [race_id] is at
    most the number of rows of [cities]. *)
Theorem select_allplanes_joins_on_rowids fs (s : store) tc tr :
  cities s = Some tc → races s = Some tr →
  NoDup (city_race_id <$> rows tc) →
  ¬ storage_failure (select_allplanes fs s) →
  returned (select_allplanes fs s)
  = Ok (record <$> filter (λ r, race_race_id r ∈ city_race_id <$> rows tc) (rows tr))
  ∧ (reachable affinity s →
     returned (select_allplanes fs s)
     = Ok (record <$>
             filter (λ r, (race_race_id r ≤ Z.of_nat (length (rows tc)))%Z) (rows tr))).
Proof.
  intros Hc Hr Hn Hok.
  destruct (select_allplanes_cases fs s)
    as (_ & [(_ & Hlog) | (_ & tr' & tc' & Hr' & Hc' & Hret & _)]).
  { destruct Hok. by eapply storage_failure_error. }
  simplify_eq. rewrite Hret, join_primary_key by done. split; [done|].
  intros [Hdc Hdr]%reachable_store_inv.
  destruct (Hdc _ Hc) as [[Hids _] _]. destruct (Hdr _ Hr) as [Hids' _].
  rewrite Hids. by erewrite filter_dense_keys.
Qed.

(** *** [add_plane] *)

Lemma successful_add_plane fs (s : store) race_name number type :
  successful (add_plane affinity fs s race_name number type) →
  ∃ tc tr tc' rowid,
    cities s = Some tc ∧ races s = Some tr
    ∧ get_or_create tc (affinity race_name) tc'
    ∧ file (add_plane affinity fs s race_name number type)
      = Store (Some tc')
          (Some (insert_row rowid (Race rowid race_name number type) tr)).
Proof.
  intros [Hret Hok].
  destruct (add_plane_cases fs s race_name number type)
    as [(_ & _ & Hlog) | [(Hraise & _) | [(Hraise & _) |
        (_ & _ & tc & tr & tc' & rowid & Hc & Hr & _ & Hg & _ & Hfile)]]].
  - destruct Hok. by eapply storage_failure_error.
  - by rewrite Hraise in Hret.
  - by rewrite Hraise in Hret.
  - by exists tc, tr, tc', rowid.
Qed.

(** What one successful call does to the rows of a store the program
    built. *)
Lemma add_plane_rows fs (s : store) race_name number type :
  reachable affinity s →
  successful (add_plane affinity fs s race_name number type) →
  (∃ rowid, race_rows (file (add_plane affinity fs s race_name number type))
            = race_rows s ++ [Race rowid race_name number type])
  ∧ ((affinity race_name ∈ names s
      ∧ city_rows (file (add_plane affinity fs s race_name number type))
        = city_rows s)
     ∨ ((affinity race_name ∉ names s)
        ∧ ∃ rowid, city_rows (file (add_plane affinity fs s race_name number type))
                   = city_rows s ++ [City rowid (affinity race_name)]))
  ∧ affinity race_name
      ∈ names (file (add_plane affinity fs s race_name number type))
  ∧ length (filter (λ c, city_race_name c = affinity race_name)
              (city_rows (file (add_plane affinity fs s race_name number type))))
    = 1.
Proof.
  intros Hreach Hsucc.
  pose proof (reachable_store_inv _
                (reachable_add_plane _ fs s race_name number type Hreach)) as [Hinv _].
  destruct (successful_add_plane _ _ _ _ _ Hsucc)
    as (tc & tr & tc' & rowid & Hc & Hr & Hg & Hfile).
  rewrite Hfile in *. unfold names, city_rows, race_rows. rewrite Hc, Hr. simpl.
  destruct (Hinv tc' eq_refl) as [_ Hnodup].
  assert (affinity race_name ∈ city_race_name <$> rows tc') as Hin.
  { destruct Hg as [[Hk ->] | (Hk & cid & Hid & ->)]; [done|].
    simpl. rewrite fmap_app. apply elem_of_app. right. by left. }
  split_and!; [by eauto | | done |].
  - destruct Hg as [[Hk ->] | (Hk & cid & Hid & ->)]; [by left|].
    right. split; [done|]. by exists cid.
  - rewrite filter_key_length by done. by rewrite decide_True.
Qed.

(** C3: a successful call of [add_plane] on a store the program built adds
    exactly one row to [races]; it adds one row to [cities] when no row
    carries the destination, and none when one does; afterwards exactly
    one row of [cities] carries the destination. A second successful call
    with the same destination adds no row to [cities], so that the two
    calls leave one row of [cities] for that destination and two new rows
    of [races]. *)
Theorem add_plane_get_or_create fs (s : store) race_name number type :
  reachable affinity s →
  successful (add_plane affinity fs s race_name number type) →
  (∃ rowid, race_rows (file (add_plane affinity fs s race_name number type))
            = race_rows s ++ [Race rowid race_name number type])
  ∧ ((affinity race_name ∈ names s
      ∧ city_rows (file (add_plane affinity fs s race_name number type))
        = city_rows s)
     ∨ ((affinity race_name ∉ names s)
        ∧ ∃ rowid, city_rows (file (add_plane affinity fs s race_name number type))
                   = city_rows s ++ [City rowid (affinity race_name)]))
  ∧ length (filter (λ c, city_race_name c = affinity race_name)
              (city_rows (file (add_plane affinity fs s race_name number type))))
    = 1
  ∧ ∀ fs' number' type',
      successful (add_plane affinity fs'
                    (file (add_plane affinity fs s race_name number type))
                    race_name number' type') →
      city_rows (file (add_plane affinity fs'
                         (file (add_plane affinity fs s race_name number type))
                         race_name number' type'))
      = city_rows (file (add_plane affinity fs s race_name number type))
      ∧ length (filter (λ c, city_race_name c = affinity race_name)
                  (city_rows (file (add_plane affinity fs'
                     (file (add_plane affinity fs s race_name number type))
                     race_name number' type'))))
        = 1
      ∧ ∃ rowid rowid',
          race_rows (file (add_plane affinity fs'
                             (file (add_plane affinity fs s race_name number type))
                             race_name number' type'))
          = race_rows s ++ [Race rowid race_name number type;
                            Race rowid' race_name number' type'].
Proof.
  intros Hreach Hsucc.
  destruct (add_plane_rows fs s race_name number type Hreach Hsucc)
    as ([rowid Hraces] & Hcities & Hin & Hone).
  split_and!; [by eauto | done | done |].
  intros fs' number' type' Hsucc'.
  pose proof (reachable_add_plane _ fs s race_name number type Hreach) as Hreach'.
  destruct (add_plane_rows fs' _ race_name number' type' Hreach' Hsucc')
    as ([rowid' Hraces'] & [[_ Hsame] | [Hnot _]] & _ & Hone'); [|done].
  split_and!; [done | done |].
  exists rowid, rowid'. by rewrite Hraces', Hraces, <- app_assoc.
Qed.


(** A call of [add_plane] in which nothing fails. *)
Lemma add_plane_fault_free (s : store) tc tr tc' rowid race_name number type :
  cities s = Some tc → races s = Some tr →
  valid_utf8 race_name = true →
  int64 number → int64 type →
  get_or_create tc (affinity race_name) tc' →
  next_rowid race_race_id tr = Some rowid →
  add_plane affinity [] s race_name number type
  = Outcome _ (Ok ())
      (Store (Some tc')
         (Some (insert_row rowid (Race rowid race_name number type) tr)))
      [INFO (added_message race_name number type)].
Proof.
  intros Hc Hr Hv Hn Ht Hg Hid.
  unfold add_plane, try_except, add_plane_body, connect, select_city, insert_city,
    insert_race, commit, write_back, get_work, put_work, raise, sqlite_call,
    mbind, db_bind, mret, db_ret.
  cbn [faults work disk]. rewrite Hc, Hv. cbn [faults work disk cities races].
  destruct (head (filter _ (rows tc))) as [x|] eqn:Hhead;
    destruct Hg as [[Hk ->] | (Hk & cid & Hcid & ->)].
  - cbn [fmap option_fmap option_map faults work disk cities races].
    rewrite Hr, Hid, bool_decide_true by done.
    cbn [faults work disk cities races]. by rewrite <- Hc.
  - destruct Hk. apply head_Some_elem_of, list_elem_of_filter in Hhead as [<- Hx].
    by apply list_elem_of_fmap_2.
  - apply head_filter_None in Hhead. rewrite Forall_forall in Hhead.
    apply list_elem_of_fmap in Hk as (x & Hk & Hx). by destruct (Hhead x Hx).
  - cbn [fmap option_fmap option_map faults work disk cities races].
    rewrite Hc, Hcid. cbn [faults work disk cities races].
    rewrite Hr, Hid, bool_decide_true by done.
    by cbn [faults work disk cities races].
Qed.

(** A call of [select_allplanes] in which nothing fails. *)
Lemma select_allplanes_fault_free (s : store (key:=key)) tr tc :
  races s = Some tr → cities s = Some tc →
  forallb (λ r, valid_utf8 (race_race_name r)) (join tr tc) = true →
  select_allplanes [] s = Outcome _ (Ok (record <$> join tr tc)) s [].
Proof.
  intros Hr Hc Hv.
  unfold select_allplanes, try_except, select_allplanes_body, connect,
    execute_join, fetchall, get_work, raise, sqlite_call, mbind, db_bind,
    mret, db_ret.
  cbn [faults work disk]. rewrite Hr, Hc. cbn [faults work disk].
  by rewrite Hv.
Qed.

(** The first two flights of a fresh store, when nothing fails: the second
    destination gets a row of its own when it is stored as a value other
    than the first. *)
Lemma fresh_two_flights r1 n1 t1 r2 n2 t2 :
  valid_utf8 r1 = true → valid_utf8 r2 = true →
  int64 n1 → int64 t1 → int64 n2 → int64 t2 →
  add_plane affinity [] fresh r1 n1 t1
  = Outcome _ (Ok ())
      (Store (Some (Table [City 1 (affinity r1)] 1))
         (Some (Table [Race 1 r1 n1 t1] 1)))
      [INFO (added_message r1 n1 t1)]
  ∧ add_plane affinity [] (file (add_plane affinity [] fresh r1 n1 t1)) r2 n2 t2
    = Outcome _ (Ok ())
        (Store
           (Some (if decide (affinity r1 = affinity r2)
                  then Table [City 1 (affinity r1)] 1
                  else Table [City 1 (affinity r1); City 2 (affinity r2)] 2))
           (Some (Table [Race 1 r1 n1 t1; Race 2 r2 n2 t2] 2)))
        [INFO (added_message r2 n2 t2)].
Proof.
  intros Hr1 Hr2 Hn1 Ht1 Hn2 Ht2.
  assert (add_plane affinity [] fresh r1 n1 t1
          = Outcome _ (Ok ())
              (Store (Some (Table [City 1 (affinity r1)] 1))
                 (Some (Table [Race 1 r1 n1 t1] 1)))
              [INFO (added_message r1 n1 t1)]) as H1.
  { rewrite (add_plane_fault_free fresh empty_table empty_table
               (insert_row 1 (City 1 (affinity r1)) empty_table) 1);
      try done.
    right. split; [by intros ?%elem_of_nil|]. by exists 1%Z. }
  split; [done|].
  remember (add_plane affinity [] fresh r1 n1 t1) as o1 eqn:Ho1.
  rewrite H1. cbn [file].
  rewrite (add_plane_fault_free _ (Table [City 1 (affinity r1)] 1)
             (Table [Race 1 r1 n1 t1] 1)
             (if decide (affinity r1 = affinity r2)
              then Table [City 1 (affinity r1)] 1
              else Table [City 1 (affinity r1); City 2 (affinity r2)] 2) 2);
    try done.
  case_decide as Hk.
  - left. split; [|done]. simpl. rewrite Hk. by left.
  - right. split.
    + simpl. intros Heq%list_elem_of_singleton. by destruct Hk.
    + by exists 2%Z.
Qed.

Lemma int64_small (z : Z) : (0 ≤ z ≤ 10000)%Z → int64 z.
Proof. unfold int64. lia. Qed.

(** C1: on a fresh store, after [add_plane] of ("Stavropol", 1, 1) and
    then of ("Stavropol", 9120, 82), both successful, [select_allplanes]
    returns the first flight only: the row of the second flight has
    [race_id] 2, and [cities] has the one row of "Stavropol", of
    [race_id] 1. *)
Theorem select_allplanes_second_flight_missing :
  successful (add_plane affinity [] fresh "Stavropol" 1 1)
  ∧ successful
      (add_plane affinity []
         (file (add_plane affinity [] fresh "Stavropol" 1 1)) "Stavropol" 9120 82)
  ∧ returned
      (select_allplanes []
         (file (add_plane affinity []
                  (file (add_plane affinity [] fresh "Stavropol" 1 1))
                  "Stavropol" 9120 82)))
    = Ok [ {[ "race" := PyStr "Stavropol"; "number" := PyInt 1; "type" := PyInt 1 ]} ]
  ∧ ({[ "race" := PyStr "Stavropol"; "number" := PyInt 9120; "type" := PyInt 82 ]}
       : gmap string pyval)
    ∉ [ ({[ "race" := PyStr "Stavropol"; "number" := PyInt 1; "type" := PyInt 1 ]}
           : gmap string pyval) ].
Proof.
  destruct (fresh_two_flights "Stavropol" 1 1 "Stavropol" 9120 82)
    as [H1 H2]; [done | done | by apply int64_small..|].
  rewrite decide_True in H2 by done.
  rewrite H2. rewrite H1. split_and!.
  - split; [done|]. by eapply storage_failure_info.
  - split; [done|]. by eapply storage_failure_info.
  - erewrite select_allplanes_fault_free by done. reflexivity.
  - intros Heq%list_elem_of_singleton.
    apply (f_equal (λ m : gmap string pyval, m !! "number")) in Heq.
    vm_compute in Heq. discriminate Heq.
Qed.

(** C4: on a fresh store, when the two destinations are stored as
    different values, the successful calls of [add_plane] of ("A", 1, 10)
    and then of ("B", 2, 20) make [select_allplanes] return exactly these
    two records, in this order; and the same for ("Novoalexandrovsk",
    3234, 62) and then ("Stavropol", 9120, 82). *)
Theorem select_allplanes_insertion_order :
  affinity "A" ≠ affinity "B" →
  affinity "Novoalexandrovsk" ≠ affinity "Stavropol" →
  (successful (add_plane affinity [] fresh "A" 1 10)
   ∧ successful
       (add_plane affinity [] (file (add_plane affinity [] fresh "A" 1 10)) "B" 2 20)
   ∧ returned
       (select_allplanes []
          (file (add_plane affinity []
                   (file (add_plane affinity [] fresh "A" 1 10)) "B" 2 20)))
     = Ok [ {[ "race" := PyStr "A"; "number" := PyInt 1; "type" := PyInt 10 ]};
            {[ "race" := PyStr "B"; "number" := PyInt 2; "type" := PyInt 20 ]} ])
  ∧ (successful (add_plane affinity [] fresh "Novoalexandrovsk" 3234 62)
     ∧ successful
         (add_plane affinity []
            (file (add_plane affinity [] fresh "Novoalexandrovsk" 3234 62))
            "Stavropol" 9120 82)
     ∧ returned
         (select_allplanes []
            (file (add_plane affinity []
                     (file (add_plane affinity [] fresh "Novoalexandrovsk" 3234 62))
                     "Stavropol" 9120 82)))
       = Ok [ {[ "race" := PyStr "Novoalexandrovsk"; "number" := PyInt 3234;
                 "type" := PyInt 62 ]};
              {[ "race" := PyStr "Stavropol"; "number" := PyInt 9120;
                 "type" := PyInt 82 ]} ]).
Proof.
  intros HAB HNS. split.
  - destruct (fresh_two_flights "A" 1 10 "B" 2 20)
      as [H1 H2]; [done | done | by apply int64_small..|].
    rewrite decide_False in H2 by done.
    rewrite H2. rewrite H1. split_and!.
    + split; [done|]. by eapply storage_failure_info.
    + split; [done|]. by eapply storage_failure_info.
    + erewrite select_allplanes_fault_free by done. reflexivity.
  - destruct (fresh_two_flights "Novoalexandrovsk" 3234 62 "Stavropol" 9120 82)
      as [H1 H2]; [done | done | by apply int64_small..|].
    rewrite decide_False in H2 by done.
    rewrite H2. rewrite H1. split_and!.
    + split; [done|]. by eapply storage_failure_info.
    + split; [done|]. by eapply storage_failure_info.
    + erewrite select_allplanes_fault_free by done. reflexivity.
Qed.

(** *** [select_allplanes] and [create_db] *)

(** A block that ends in [sqlite3.Error] makes [select_allplanes] log it
    and return the empty list. *)
Lemma select_allplanes_raises fs (s : store (key:=key)) :
  raises select_allplanes_body fs s sqlite3_Error →
  returned (select_allplanes fs s) = Ok []
  ∧ file (select_allplanes fs s) = s
  ∧ logs (select_allplanes fs s) = [ERROR "Error selecting planes: "].
Proof.
  intros [c Hc]. unfold select_allplanes, try_except. rewrite Hc. simpl.
  split_and!; [done | | done].
  destruct (select_allplanes_body_cases fs s)
    as [fs' [H | (? & ? & _ & _ & _ & H)]]; rewrite Hc in H; by simplify_eq.
Qed.

(** C6: when the block of [select_allplanes] ends in [sqlite3.Error],
    raised by whichever of its calls into the driver, the call returns the
    empty list and logs one error, raising nothing and leaving the file as
    it was; the empty list is also what the successful query of a fresh
    store returns. *)
Theorem select_allplanes_failure_returns_empty fs (s : store (key:=key)) :
  raises select_allplanes_body fs s sqlite3_Error →
  returned (select_allplanes fs s) = Ok []
  ∧ logs (select_allplanes fs s) = [ERROR "Error selecting planes: "]
  ∧ file (select_allplanes fs s) = s
  ∧ successful (select_allplanes [] (fresh (key:=key)))
  ∧ returned (select_allplanes fs s)
    = returned (select_allplanes [] (fresh (key:=key))).
Proof.
  intros (Hret & Hfile & Hlog)%select_allplanes_raises.
  rewrite Hret. split_and!; try done.
  split; [done|]. by apply storage_failure_nil.
Qed.

(** C7: a successful call of [create_db] leaves the two tables [cities]
    and [races], each once, and the rows the file had; a second call on
    the file it leaves changes nothing, and so does any call on a file
    that has both tables, whatever fails in it. *)
Theorem create_db_idempotent fs1 fs2 (s : store (key:=key)) :
  ¬ storage_failure (create_db fs1 s) →
  table_names (file (create_db fs1 s)) = ["cities"; "races"]
  ∧ file (create_db fs2 (file (create_db fs1 s))) = file (create_db fs1 s)
  ∧ table_names (file (create_db fs2 (file (create_db fs1 s))))
    = ["cities"; "races"]
  ∧ city_rows (file (create_db fs1 s)) = city_rows s
  ∧ race_rows (file (create_db fs1 s)) = race_rows s
  ∧ ∀ fs (tc : table (city (key:=key))) tr,
      file (create_db fs (Store (Some tc) (Some tr))) = Store (Some tc) (Some tr).
Proof.
  intros Hok.
  assert (∀ fs (tc : table (city (key:=key))) tr,
            file (create_db fs (Store (Some tc) (Some tr)))
            = Store (Some tc) (Some tr)) as Hnoop.
  { intros fs tc tr.
    by destruct (create_db_cases fs (Store (Some tc) (Some tr)))
      as (_ & [(_ & [-> | ->]) | (_ & ->)]). }
  destruct (create_db_cases fs1 s) as (_ & [(Hlog & _) | (_ & ->)]).
  { destruct Hok. by eapply storage_failure_error. }
  assert (∃ tc tr, create_races (create_cities s) = Store (Some tc) (Some tr)
                   ∧ rows tc = city_rows s ∧ rows tr = race_rows s)
    as (tc & tr & -> & Hc & Hr).
  { unfold create_races, create_cities, city_rows, race_rows.
    destruct s as [[tc|] [tr|]]; simpl; by eauto. }
  rewrite Hnoop. by split_and!.
Qed.

(** *** [main] *)

Lemma create_db_rows fs (s : store (key:=key)) :
  city_rows (file (create_db fs s)) = city_rows s
  ∧ race_rows (file (create_db fs s)) = race_rows s
  ∧ (cities s = None ∨ cities (file (create_db fs s)) = cities s)
  ∧ (races s = None ∨ races (file (create_db fs s)) = races s).
Proof.
  destruct (create_db_cases fs s) as (_ & [(_ & [-> | ->]) | (_ & ->)]);
    unfold create_races, create_cities, city_rows, race_rows;
    destruct s as [[tc|] [tr|]]; simpl; auto.
Qed.

(** C8: [main] with the subcommand [select] does what [create_db] does and
    nothing else: it leaves the file [create_db] leaves, logs what
    [create_db] logs, prints nothing and raises nothing; the rows of
    [cities] and [races] are the ones the file had, and a table that was
    there is unchanged. Whatever the subcommand, [main] runs [create_db]
    first. *)
Theorem main_select_only_ensures_schema fs1 fs2 (s : store) :
  database (main affinity fs1 fs2 (Subcommand Select) s) = file (create_db fs1 s)
  ∧ log (main affinity fs1 fs2 (Subcommand Select) s) = logs (create_db fs1 s)
  ∧ stdout (main affinity fs1 fs2 (Subcommand Select) s) = []
  ∧ uncaught (main affinity fs1 fs2 (Subcommand Select) s) = None
  ∧ city_rows (database (main affinity fs1 fs2 (Subcommand Select) s)) = city_rows s
  ∧ race_rows (database (main affinity fs1 fs2 (Subcommand Select) s)) = race_rows s
  ∧ (cities s = None
     ∨ cities (database (main affinity fs1 fs2 (Subcommand Select) s)) = cities s)
  ∧ (races s = None
     ∨ races (database (main affinity fs1 fs2 (Subcommand Select) s)) = races s)
  ∧ ∀ cmd, ∃ l, log (main affinity fs1 fs2 (Subcommand cmd) s) = logs (create_db fs1 s) ++ l.
Proof.
  pose proof (create_db_cases fs1 s) as [Hret _].
  pose proof (create_db_rows fs1 s) as (Hc & Hr & Hct & Hrt).
  unfold main. rewrite Hret. cbn [database log stdout uncaught].
  split_and!; try done.
  intros [race_name number type| |]; cbn [log].
  - by eauto.
  - destruct (returned (select_allplanes fs2 (file (create_db fs1 s))));
      cbn [log]; by eauto.
  - exists []. by rewrite app_nil_r.
Qed.

(** *** [display_plane] *)



End RecordStoreFacts.

(** ** The theorems at concrete inputs *)

Lemma select_allplanes_joins_on_rowids_witness :
  cities two_flights = Some (Table [City 1 "Stavropol"] 1)
  ∧ returned (select_allplanes [] two_flights)
    = Ok [ {[ "race" := PyStr "Stavropol"; "number" := PyInt 1; "type" := PyInt 1 ]} ].
Proof.
  assert (cities two_flights = Some (Table [City 1 "Stavropol"] 1)) as Hc
    by (vm_compute; reflexivity).
  assert (races two_flights
          = Some (Table [Race 1 "Stavropol" 1 1; Race 2 "Stavropol" 9120 82] 2)) as Hr
    by (vm_compute; reflexivity).
  assert (NoDup (city_race_id <$> rows (Table [City 1 "Stavropol"] 1))) as Hn
    by apply NoDup_singleton.
  assert (¬ storage_failure (select_allplanes [] two_flights)) as Hok
    by (apply storage_failure_nil; vm_compute; reflexivity).
  assert (reachable as_text two_flights) as Hreach
    by apply reachable_add_plane, reachable_add_plane, reachable_create_db,
         reachable_absent.
  split; [exact Hc|].
  destruct (select_allplanes_joins_on_rowids as_text [] two_flights _ _ Hc Hr Hn Hok)
    as [_ Hle].
  rewrite (Hle Hreach). vm_compute. reflexivity.
Defined.

Lemma add_plane_get_or_create_witness :
  reachable as_text fresh
  ∧ successful (add_plane as_text [] fresh "Stavropol" 1 1)
  ∧ length (filter (λ c, city_race_name c = as_text "Stavropol") (city_rows two_flights))
    = 1.
Proof.
  assert (reachable as_text fresh) as Hreach
    by apply reachable_create_db, reachable_absent.
  assert (successful (add_plane as_text [] fresh "Stavropol" 1 1)) as Hsucc.
  { split; [vm_compute; reflexivity|].
    apply storage_failure_info
      with (msg := "Plane added successfully: Stavropol, 1, 1").
    vm_compute. reflexivity. }
  assert (successful (add_plane as_text []
            (file (add_plane as_text [] fresh "Stavropol" 1 1)) "Stavropol" 9120 82))
    as Hsucc'.
  { split; [vm_compute; reflexivity|].
    apply storage_failure_info
      with (msg := "Plane added successfully: Stavropol, 9120, 82").
    vm_compute. reflexivity. }
  split; [exact Hreach|]. split; [exact Hsucc|].
  destruct (add_plane_get_or_create as_text [] fresh "Stavropol" 1 1 Hreach Hsucc)
    as (_ & _ & _ & Htwice).
  destruct (Htwice [] 9120%Z 82%Z Hsucc') as (_ & Hone & _).
  exact Hone.
Defined.

Lemma select_allplanes_insertion_order_witness :
  as_text "A" ≠ as_text "B"
  ∧ as_text "Novoalexandrovsk" ≠ as_text "Stavropol"
  ∧ returned
      (select_allplanes []
         (file (add_plane as_text []
                  (file (add_plane as_text [] fresh "A" 1 10)) "B" 2 20)))
    = Ok [ {[ "race" := PyStr "A"; "number" := PyInt 1; "type" := PyInt 10 ]};
           {[ "race" := PyStr "B"; "number" := PyInt 2; "type" := PyInt 20 ]} ].
Proof.
  assert (as_text "A" ≠ as_text "B") as HAB by discriminate.
  assert (as_text "Novoalexandrovsk" ≠ as_text "Stavropol") as HNS by discriminate.
  split; [exact HAB|]. split; [exact HNS|].
  destruct (select_allplanes_insertion_order as_text HAB HNS) as [(_ & _ & Hsel) _].
  exact Hsel.
Defined.


Lemma select_allplanes_failure_returns_empty_witness :
  raises select_allplanes_body [false; true] two_flights sqlite3_Error
  ∧ returned (select_allplanes [false; true] two_flights) = Ok []
  ∧ logs (select_allplanes [false; true] two_flights)
    = [ERROR "Error selecting planes: "].
Proof.
  assert (raises select_allplanes_body [false; true] two_flights sqlite3_Error)
    as Hfail.
  { exists (Conn two_flights two_flights []). vm_compute. reflexivity. }
  split; [exact Hfail|].
  destruct (select_allplanes_failure_returns_empty [false; true] two_flights Hfail)
    as (Hret & Hlog & _).
  split; [exact Hret | exact Hlog].
Defined.

Lemma create_db_idempotent_witness :
  ¬ storage_failure (create_db [] (absent (key:=string)))
  ∧ file (create_db [] (file (create_db [] (absent (key:=string)))))
    = file (create_db [] absent).
Proof.
  assert (¬ storage_failure (create_db [] (absent (key:=string)))) as Hok.
  { apply storage_failure_info with (msg := "Database created successfully.").
    vm_compute. reflexivity. }
  split; [exact Hok|].
  destruct (create_db_idempotent [] [] absent Hok) as (_ & Hsame & _).
  exact Hsame.
Defined.


(** ** Where the specification says more than the program does *)



(** ** Further properties of the operations *)

Section Operations.

Context {key : Type} {key_eq_dec : EqDecision key}.
Variable affinity : string → key.

(** *** The exceptions [add_plane] lets through *)

Lemma add_plane_raise_inv fs (s : store) race_name number type e :
  returned (add_plane affinity fs s race_name number type) = Raise e →
  file (add_plane affinity fs s race_name number type) = s
  ∧ logs (add_plane affinity fs s race_name number type) = []
  ∧ is_Some (cities s)
  ∧ ((e = OverflowError ∧ ¬ (int64 number ∧ int64 type)
      ∧ valid_utf8 race_name = true ∧ is_Some (races s))
     ∨ (e = UnicodeEncodeError ∧ valid_utf8 race_name = false)).
Proof.
  unfold add_plane, try_except.
  destruct (add_plane_body_cases affinity fs s race_name number type)
    as (w & fs' & [-> | [(Hov & Hv & Hc & Hr & ->) | [(Hv & Hc & ->) |
         (? & ? & ? & ? & _ & _ & _ & _ & _ & _ & ->)]]]);
    simpl; intros [= <-].
  - split_and!; [done.. |]. left. by split_and!.
  - split_and!; [done.. |]. by right.
Qed.


(** X2: whatever happens in it, [add_plane] only appends: the rows of both
    tables are kept in place, at most one row is added to each, a row of
    [cities] is never added without a row of [races], and no table is
    created or dropped. *)
Theorem add_plane_appends_only fs (s : store) race_name number type :
  ∃ new_cities new_races,
    city_rows (file (add_plane affinity fs s race_name number type))
    = city_rows s ++ new_cities
    ∧ race_rows (file (add_plane affinity fs s race_name number type))
      = race_rows s ++ new_races
    ∧ length new_cities ≤ length new_races
    ∧ length new_races ≤ 1
    ∧ table_names (file (add_plane affinity fs s race_name number type))
      = table_names s.
Proof.
  destruct (add_plane_cases affinity fs s race_name number type)
    as [(_ & -> & _) | [(_ & -> & _) | [(_ & -> & _) |
        (_ & _ & tc & tr & tc' & rowid & Hc & Hr & _ & Hg & _ & ->)]]].
  - exists [], []. rewrite !app_nil_r. split_and!; simpl; auto.
  - exists [], []. rewrite !app_nil_r. split_and!; simpl; auto.
  - exists [], []. rewrite !app_nil_r. split_and!; simpl; auto.
  - unfold city_rows, race_rows, table_names. rewrite Hc, Hr. simpl.
    destruct Hg as [[_ ->] | (_ & cid & _ & ->)].
    + exists [], [Race rowid race_name number type]. rewrite app_nil_r.
      split_and!; simpl; auto.
    + exists [City cid (affinity race_name)], [Race rowid race_name number type].
      split_and!; simpl; auto.
Qed.

(** X3: on a file that lacks one of the two tables, [add_plane] leaves the
    file as it was; it logs one error and returns [None] when [cities] is
    the table that lacks or the destination can be encoded (otherwise the
    lookup in [cities] may end in [UnicodeEncodeError] before the insert
    into [races] is tried); and [select_allplanes] logs one error and
    returns the empty list. *)
Theorem missing_table_is_logged fs (s : store) race_name number type :
  cities s = None ∨ races s = None →
  file (add_plane affinity fs s race_name number type) = s
  ∧ (cities s = None ∨ valid_utf8 race_name = true →
     returned (add_plane affinity fs s race_name number type) = Ok ()
     ∧ logs (add_plane affinity fs s race_name number type)
       = [ERROR "Error adding plane: "])
  ∧ returned (select_allplanes fs s) = Ok []
  ∧ logs (select_allplanes fs s) = [ERROR "Error selecting planes: "]
  ∧ file (select_allplanes fs s) = s.
Proof.
  intros Hmissing.
  assert (file (add_plane affinity fs s race_name number type) = s
          ∧ (cities s = None ∨ valid_utf8 race_name = true →
             returned (add_plane affinity fs s race_name number type) = Ok ()
             ∧ logs (add_plane affinity fs s race_name number type)
               = [ERROR "Error adding plane: "])) as [Hfile Hadd].
  { destruct (add_plane_cases affinity fs s race_name number type)
      as [(Hret & Hfile & Hlog) | [(Hret & Hfile & _) | [(Hret & Hfile & _) |
          (_ & _ & tc & tr & _ & _ & Hc & Hr & _)]]].
    - done.
    - destruct (add_plane_raise_inv _ _ _ _ _ _ Hret)
        as (_ & _ & [? Hc] & [(_ & _ & _ & [? Hr]) | [? _]]); [|done].
      destruct Hmissing; congruence.
    - split; [done|].
      destruct (add_plane_raise_inv _ _ _ _ _ _ Hret)
        as (_ & _ & [? Hc] & [(? & _) | [_ Hv]]); [done|].
      intros [?|?]; congruence.
    - destruct Hmissing; congruence. }
  split_and!; [done | done | ..];
    destruct (select_allplanes_cases fs s)
      as (Hsel & [[Hret Hlog] | (_ & tr & tc & Hr & Hc & _)]);
    try done; destruct Hmissing; congruence.
Qed.

(** *** The failures of [create_db] *)

(** X5: when the block of [create_db] ends in [sqlite3.Error], the call
    returns [None] and logs one error, and it leaves the file as it was
    or, when the file had no table [cities] and the failure came after the
    first statement, with an empty table [cities] added to it and its
    table [races], there or not, as it was: the two statements are not one
    transaction. *)
Theorem create_db_failure_modes fs (s : store (key:=key)) :
  raises create_db_body fs s sqlite3_Error →
  returned (create_db fs s) = Ok ()
  ∧ logs (create_db fs s) = [ERROR "Error creating database: "]
  ∧ (file (create_db fs s) = s
     ∨ (cities s = None
        ∧ file (create_db fs s) = Store (Some empty_table) (races s))).
Proof.
  intros [c Hc]. unfold create_db, try_except. rewrite Hc. simpl.
  split_and!; [done..|].
  destruct (create_db_body_cases fs s) as [fs' [H | [H | H]]];
    rewrite Hc in H; simplify_eq; simpl; [by left | ].
  unfold create_cities. destruct (cities s) eqn:Hcs; [by left | by right].
Qed.

(** *** What the stores the program builds keep *)

Lemma reachable_linked (s : store) :
  reachable affinity s →
  Forall (λ r, affinity (race_race_name r) ∈ names s) (race_rows s)
  ∧ length (city_rows s) ≤ length (race_rows s)
  ∧ (races s = None ∨ is_Some (cities s)).
Proof.
  induction 1 as [|fs s _ IH|fs s race_name number type _ IH].
  - split_and!; [constructor | done | by left].
  - destruct IH as (IHl & IHn & IHt).
    destruct (create_db_rows fs s) as (Hc & Hr & _).
    unfold names. rewrite Hc, Hr. split_and!; [done..|].
    destruct (create_db_cases fs s) as (_ & [(_ & [-> | ->]) | (_ & ->)]);
      [done | |]; unfold create_races, create_cities;
      destruct s as [[tc|] [tr|]]; simpl in *; eauto.
  - destruct IH as (IHl & IHn & IHt).
    destruct (add_plane_cases affinity fs s race_name number type)
      as [(_ & -> & _) | [(_ & -> & _) | [(_ & -> & _) |
          (_ & _ & tc & tr & tc' & rowid & Hc & Hr & _ & Hg & _ & ->)]]];
      [done..|].
    unfold names, city_rows, race_rows in *. rewrite Hc, Hr in *. simpl in *.
    assert (∀ k, k ∈ city_race_name <$> rows tc → k ∈ city_race_name <$> rows tc')
      as Hmono.
    { destruct Hg as [[_ ->] | (_ & cid & _ & ->)]; [done|].
      intros k Hk. simpl. rewrite fmap_app. apply elem_of_app. by left. }
    assert (affinity race_name ∈ city_race_name <$> rows tc') as Hnew.
    { destruct Hg as [[Hk ->] | (_ & cid & _ & ->)]; [done|].
      simpl. rewrite fmap_app. apply elem_of_app. right. by left. }
    split_and!; [| |by eauto].
    + apply Forall_app. split.
      * eapply Forall_impl; [exact IHl|]. simpl. auto.
      * by constructor.
    + rewrite length_app. simpl.
      destruct Hg as [[_ ->] | (_ & cid & _ & ->)]; simpl; [lia|].
      rewrite length_app. simpl. lia.
Qed.

(** X6: in every store the program builds, whatever failed on the way, each
    row of [races] has exactly one row of [cities] for its destination,
    though the foreign key is not enforced; there are at most as many rows
    in [cities] as in [races]; and [races] is there only if [cities] is. *)
Theorem reachable_referential_integrity (s : store) :
  reachable affinity s →
  Forall (λ r, length (filter (λ c, city_race_name c = affinity (race_race_name r))
                         (city_rows s)) = 1)
    (race_rows s)
  ∧ length (city_rows s) ≤ length (race_rows s)
  ∧ (races s = None ∨ is_Some (cities s)).
Proof.
  intros Hreach. destruct (reachable_linked s Hreach) as (Hl & Hn & Ht).
  split_and!; [|done..].
  assert (NoDup (names s)) as Hnodup.
  { destruct (reachable_store_inv affinity s Hreach) as [Hc _].
    unfold names, city_rows. destruct (cities s) as [tc|]; simpl; [|constructor].
    by destruct (Hc tc eq_refl). }
  eapply Forall_impl; [exact Hl|]. simpl. intros r Hr.
  rewrite filter_key_length by done. by rewrite decide_True.
Qed.

(** *** What [select_allplanes] lists *)

(** Every destination of [cities] is the destination of a flight: a row of
    [cities] is committed with the row of [races] it was inserted for. *)
Lemma reachable_cities_used (s : store) :
  reachable affinity s →
  ∀ k, k ∈ names s → k ∈ (λ r, affinity (race_race_name r)) <$> race_rows s.
Proof.
  induction 1 as [|fs s _ IH|fs s race_name number type _ IH].
  - by intros k ?%elem_of_nil.
  - destruct (create_db_rows fs s) as (Hc & Hr & _).
    unfold names. by rewrite Hc, Hr.
  - destruct (add_plane_cases affinity fs s race_name number type)
      as [(_ & -> & _) | [(_ & -> & _) | [(_ & -> & _) |
          (_ & _ & tc & tr & tc' & rowid & Hc & Hr & _ & Hg & _ & ->)]]];
      [done..|].
    unfold names, city_rows, race_rows in *. rewrite Hc, Hr in *. simpl in *.
    intros k Hk. rewrite fmap_app. apply elem_of_app.
    destruct Hg as [[_ ->] | (_ & cid & _ & ->)]; [left; by apply IH|].
    simpl in Hk. rewrite fmap_app in Hk.
    apply elem_of_app in Hk as [Hk | ->%list_elem_of_singleton].
    + left. by apply IH.
    + right. by left.
Qed.

(** A list without repetition is as long as a list of the same elements
    exactly when that list has no repetition either. *)
Lemma length_NoDup {K : Type} (l k : list K) :
  NoDup l → (∀ x, x ∈ l ↔ x ∈ k) → length l = length k ↔ NoDup k.
Proof.
  intros Hl Heq. split.
  - intros Hlen.
    assert (l ⊆+ k) as Hsub by (apply NoDup_submseteq; [done | intros x; apply Heq]).
    assert (l ≡ₚ k) as Hperm by (apply submseteq_length_Permutation; [done | lia]).
    by rewrite <- Hperm.
  - intros Hk. by apply Permutation_length, NoDup_Permutation.
Qed.

Lemma filter_keys_above (l : list race) (b : Z) :
  Forall (λ r, (b < race_race_id r)%Z) l →
  filter (λ r, (race_race_id r ≤ b)%Z) l = [].
Proof.
  induction 1 as [|r l Hr _ IH]; [done|].
  rewrite filter_cons, IH. case_decide; [lia | done].
Qed.

Lemma filter_dense_take (l : list race) (start : Z) (k : nat) :
  race_race_id <$> l = seqZ start (Z.of_nat (length l)) →
  filter (λ r, (race_race_id r ≤ start + Z.of_nat k - 1)%Z) l = take k l.
Proof.
  revert start k. induction l as [|r l IH]; intros start k Hl; [by destruct k|].
  rewrite fmap_cons, length_cons, Nat2Z.inj_succ, seqZ_cons in Hl by lia.
  rewrite Z.pred_succ in Hl. apply (inj2 cons) in Hl as [Hr Hl].
  destruct k as [|k].
  - rewrite take_0. apply filter_keys_above. constructor; [lia|].
    apply Forall_forall. intros x Hx.
    apply (list_elem_of_fmap_2 race_race_id) in Hx. rewrite Hl in Hx.
    apply elem_of_seqZ in Hx. lia.
  - rewrite filter_cons. rewrite decide_True by lia. simpl. f_equal.
    rewrite <- (IH (Z.succ start) k Hl).
    apply list_filter_iff. intros x. lia.
Qed.

(** X7: on a store the program built, a successful [select_allplanes]
    returns the records of the first rows of [races], as many of them as
    there are rows in [cities]; so it lists every flight exactly when
    [cities] has as many rows as [races], which is when no two flights
    have destinations that [cities.race_name] stores as the same value. *)
Theorem select_allplanes_lists_one_per_destination fs (s : store) staff :
  reachable affinity s →
  ¬ storage_failure (select_allplanes fs s) →
  returned (select_allplanes fs s) = Ok staff →
  staff = record <$> take (length (city_rows s)) (race_rows s)
  ∧ length staff = length (city_rows s)
  ∧ (length staff = length (race_rows s)
     ↔ length (city_rows s) = length (race_rows s))
  ∧ (length (city_rows s) = length (race_rows s)
     ↔ NoDup ((λ r, affinity (race_race_name r)) <$> race_rows s)).
Proof.
  intros Hreach Hok Hret.
  destruct (reachable_store_inv affinity s Hreach) as [Hinvc Hinvr].
  destruct (reachable_linked s Hreach) as (Hin & Hle & _).
  pose proof (reachable_cities_used s Hreach) as Hused.
  destruct (select_allplanes_cases fs s)
    as (_ & [(_ & Hlog) | (_ & tr & tc & Hr & Hc & Hret' & _)]).
  { destruct Hok. by eapply storage_failure_error. }
  unfold names, city_rows, race_rows in *. rewrite Hc, Hr in *. simpl in *.
  destruct (Hinvc tc eq_refl) as [[Hcids _] Hnodup].
  destruct (Hinvr tr eq_refl) as [Hrids _].
  rewrite Hret' in Hret. injection Hret as <-.
  assert (join tr tc = take (length (rows tc)) (rows tr)) as ->.
  { rewrite join_primary_key by (rewrite Hcids; apply NoDup_seqZ).
    rewrite Hcids. erewrite filter_dense_keys by done.
    rewrite <- (filter_dense_take (rows tr) 1 (length (rows tc)) Hrids).
    apply list_filter_iff. intros x. lia. }
  assert (length (record <$> take (length (rows tc)) (rows tr)) = length (rows tc))
    as Hlen by (rewrite length_fmap, length_take; lia).
  split_and!; [done | done | by rewrite Hlen |].
  rewrite <- (length_NoDup (city_race_name <$> rows tc)
                ((λ r, affinity (race_race_name r)) <$> rows tr)).
  - by rewrite !length_fmap.
  - done.
  - intros k. split; [by apply Hused|].
    intros (r & -> & Hr')%list_elem_of_fmap.
    rewrite Forall_forall in Hin. by apply Hin.
Qed.

(** *** The table [display_plane] prints *)


(** X9: a format specification pads and never cuts, and it counts
    characters: a row that [display_plane] formats has the 79 characters
    of the border when the position, the destination, the race number and
    the plane type fit their 4, 30, 20 and 12 columns, and more by what
    they exceed them otherwise. *)
Theorem format_row_width (idx : Z) (planes : gmap string pyval) (text : string) :
  format_row idx planes = Ok text →
  py_len text
  = 13 + (4 `max` py_len (pretty idx))
       + (30 `max` py_len (field_text planes "race" ""))
       + (20 `max` py_len (field_text planes "number" ""))
       + (12 `max` py_len (field_text planes "type" "0"))
  ∧ py_len line = 79
  ∧ py_len header = 79.
Proof.
  rewrite format_row_cases.
  destruct (format_error (get planes "race" _)); [done|].
  destruct (format_error (get planes "number" _)); [done|].
  destruct (format_error (get planes "type" _)); [done|].
  intros [= <-]. split; [apply py_len_expected_row | done].
Qed.

(** *** [main] *)

Lemma column_int64_range (z : Z) : int64 (column_int64 z).
Proof.
  unfold int64, column_int64.
  pose proof (Z.mod_pos_bound (z + 2 ^ 63) (2 ^ 64)) as Hmod. lia.
Qed.

Lemma column_int64_id (z : Z) : int64 z → column_int64 z = z.
Proof.
  unfold int64, column_int64. intros Hz.
  rewrite Z.mod_small by lia. lia.
Qed.

Lemma int64_digits (z : Z) : int64 z → (Z.abs z < 10 ^ int_max_str_digits)%Z.
Proof.
  unfold int64, int_max_str_digits. intros Hz.
  assert (10 ^ 19 < 10 ^ 4300)%Z by (apply Z.pow_lt_mono_r; lia).
  assert (2 ^ 63 < 10 ^ 19)%Z by reflexivity.
  lia.
Qed.

Lemma record_fields (r : race) :
  record r !! "race" = Some (PyStr (race_race_name r))
  ∧ record r !! "number" = Some (PyInt (column_int64 (race_number_name r)))
  ∧ record r !! "type" = Some (PyInt (column_int64 (race_type_name r))).
Proof. by split_and!. Qed.

Lemma record_formattable (r : race) :
  valid_utf8 (race_race_name r) = true → formattable (record r) = true.
Proof.
  intros Hv. destruct (record_fields r) as (Hrace & Hnumber & Htype).
  unfold formattable, display_error, get, field_text.
  rewrite Hrace, Hnumber, Htype. simpl.
  rewrite !bool_decide_true by apply int64_digits, column_int64_range.
  by rewrite Hv, !valid_utf8_pretty.
Qed.

Lemma select_allplanes_formattable fs (s : store (key:=key)) staff :
  returned (select_allplanes fs s) = Ok staff → forallb formattable staff = true.
Proof.
  destruct (select_allplanes_cases fs s)
    as (_ & [(-> & _) | (_ & tr & tc & _ & _ & -> & Hv)]); intros [= <-]; [done|].
  induction (join tr tc) as [|r l IH]; [done|].
  rewrite fmap_cons. cbn [forallb] in *. apply andb_prop in Hv as [Hr Hl].
  by rewrite record_formattable, IH.
Qed.


(** X11: [main] with [display] prints what [display_plane] makes of the
    list [select_allplanes] returns on the file [create_db] left, which is
    the file it leaves: nothing and one informational record when the list
    is empty, also when the query failed, and otherwise the three lines of
    the header and two lines for each record. *)
Theorem main_display_prints_listing fs1 fs2 (s : store) :
  ∃ staff,
    returned (select_allplanes fs2 (file (create_db fs1 s))) = Ok staff
    ∧ database (main affinity fs1 fs2 (Subcommand Display) s) = file (create_db fs1 s)
    ∧ stdout (main affinity fs1 fs2 (Subcommand Display) s)
      = match staff with
        | [] => []
        | _ :: _ => line :: header :: line :: expected_rows 1 staff
        end
    ∧ length (stdout (main affinity fs1 fs2 (Subcommand Display) s))
      = match staff with
        | [] => 0
        | _ :: _ => 3 + 2 * length staff
        end
    ∧ log (main affinity fs1 fs2 (Subcommand Display) s)
      = logs (create_db fs1 s) ++ logs (select_allplanes fs2 (file (create_db fs1 s)))
          ++ match staff with
             | [] => [INFO "The flight list is empty."]
             | _ :: _ => []
             end.
Proof.
  pose proof (create_db_cases fs1 s) as [Hret _].
  unfold main. rewrite Hret.
  destruct (select_allplanes_cases fs2 (file (create_db fs1 s))) as (Hfile & Hsel).
  assert (∃ staff, returned (select_allplanes fs2 (file (create_db fs1 s))) = Ok staff)
    as [staff Hstaff].
  { destruct Hsel as [(-> & _) | (_ & tr & tc & _ & _ & -> & _)]; by eauto. }
  pose proof (select_allplanes_formattable _ _ _ Hstaff) as Hf.
  exists staff. rewrite Hstaff. cbn [database stdout log]. split; [done|].
  split; [done|].
  assert (∀ idx l, length (expected_rows idx l) = 2 * length l) as Hlen.
  { intros idx l. revert idx. induction l as [|p l IH]; intros idx; [done|].
    simpl. rewrite IH. lia. }
  destruct staff as [|planes rest]; [done|].
  unfold display_plane. rewrite print_rows_formattable by done.
  cbn [printed logged]. split_and!; [done | | done].
  simpl. rewrite Hlen. lia.
Qed.

(** X12: the first run on a file that does not exist, for a destination
    that can be encoded and 64-bit integers. When nothing fails, [main]
    with [add] creates both tables and stores the flight under key 1 with
    its destination under key 1, logging the two successes; and [main]
    with [display] on the file it leaves prints the header and the one row
    of this flight. *)
Theorem main_add_first_run race_name number type :
  valid_utf8 race_name = true → int64 number → int64 type →
  main affinity [] [] (Subcommand (Add race_name number type)) absent
  = {| database := Store (Some (Table [City 1 (affinity race_name)] 1))
                     (Some (Table [Race 1 race_name number type] 1));
       log := [INFO "Database created successfully.";
               INFO (added_message race_name number type)];
       stdout := [];
       uncaught := None |}
  ∧ stdout (main affinity [] [] (Subcommand Display)
              (Store (Some (Table [City 1 (affinity race_name)] 1))
                 (Some (Table [Race 1 race_name number type] 1))))
    = [line; header; line;
       "| " +:+ justify AlignRight 4 "1" +:+ " | "
            +:+ justify AlignLeft 30 race_name +:+ " | "
            +:+ justify AlignLeft 20 (pretty number) +:+ " | "
            +:+ justify AlignRight 12 (pretty type) +:+ " |";
       line].
Proof.
  intros Hv Hn Ht. split.
  - destruct (fresh_two_flights affinity race_name number type race_name number type)
      as [H1 _]; [done..|].
    unfold main. change (create_db [] absent)
      with (Outcome (key:=key) _ (Ok ()) fresh [INFO "Database created successfully."]).
    cbn [returned file logs]. by rewrite H1.
  - unfold main.
    change (create_db [] (Store (Some (Table [City 1 (affinity race_name)] 1))
                            (Some (Table [Race 1 race_name number type] 1))))
      with (Outcome (key:=key) _ (Ok ())
              (Store (Some (Table [City 1 (affinity race_name)] 1))
                 (Some (Table [Race 1 race_name number type] 1)))
              [INFO "Database created successfully."]).
    cbn [returned file logs].
    erewrite select_allplanes_fault_free; [|done|done|].
    + cbn [returned]. change (record <$> join _ _)
        with [record (Race 1 race_name number type)].
      unfold display_plane.
      rewrite print_rows_formattable
        by (cbn [forallb]; by rewrite record_formattable).
      cbn [printed expected_rows]. unfold expected_row, field_text.
      destruct (record_fields (Race 1 race_name number type))
        as (-> & -> & ->). cbn [cell_text race_number_name race_type_name].
      by rewrite !column_int64_id.
    + change (join _ _) with [Race 1 race_name number type].
      cbn [forallb race_race_name]. by rewrite Hv.
Qed.

End Operations.

(** ** The further properties at concrete inputs *)


Lemma missing_table_is_logged_witness :
  (cities (Store (Some (empty_table (R:=city (key:=string)))) None) = None
   ∨ races (Store (Some (empty_table (R:=city (key:=string)))) None) = None)
  ∧ (cities (Store (Some (empty_table (R:=city (key:=string)))) None) = None
     ∨ valid_utf8 "Stavropol" = true)
  ∧ logs (add_plane as_text [] (Store (Some empty_table) None) "Stavropol" 9120 82)
    = [ERROR "Error adding plane: "]
  ∧ returned (select_allplanes [] (Store (Some (empty_table (R:=city (key:=string)))) None))
    = Ok [].
Proof.
  assert (cities (Store (Some (empty_table (R:=city (key:=string)))) None) = None
          ∨ races (Store (Some (empty_table (R:=city (key:=string)))) None) = None)
    as Hmissing by (right; reflexivity).
  assert (cities (Store (Some (empty_table (R:=city (key:=string)))) None) = None
          ∨ valid_utf8 "Stavropol" = true) as Hv by (right; reflexivity).
  split; [exact Hmissing|]. split; [exact Hv|].
  destruct (missing_table_is_logged as_text [] (Store (Some empty_table) None)
              "Stavropol" 9120 82 Hmissing) as (_ & Hadd & Hret & _).
  destruct (Hadd Hv) as [_ Hlog].
  split; [exact Hlog | exact Hret].
Defined.

Lemma create_db_failure_modes_witness :
  raises create_db_body [false; false; true] (absent (key:=string)) sqlite3_Error
  ∧ logs (create_db [false; false; true] (absent (key:=string)))
    = [ERROR "Error creating database: "]
  ∧ file (create_db [false; false; true] (absent (key:=string)))
    = Store (Some empty_table) None.
Proof.
  assert (raises create_db_body [false; false; true] (absent (key:=string))
            sqlite3_Error) as Hfail.
  { exists (Conn (Store (Some empty_table) None) (Store (Some empty_table) None) []).
    vm_compute. reflexivity. }
  split; [exact Hfail|].
  destruct (create_db_failure_modes [false; false; true] absent Hfail)
    as (_ & Hlog & [Hsame | [_ Hhalf]]).
  - vm_compute in Hsame. discriminate Hsame.
  - split; [exact Hlog | exact Hhalf].
Defined.

Lemma reachable_referential_integrity_witness :
  reachable as_text two_flights
  ∧ length (city_rows two_flights) ≤ length (race_rows two_flights).
Proof.
  assert (reachable as_text two_flights) as Hreach
    by apply reachable_add_plane, reachable_add_plane, reachable_create_db,
         reachable_absent.
  split; [exact Hreach|].
  destruct (reachable_referential_integrity as_text two_flights Hreach)
    as (_ & Hle & _).
  exact Hle.
Defined.

Lemma select_allplanes_lists_one_per_destination_witness :
  reachable as_text two_flights
  ∧ returned (select_allplanes [] two_flights)
    = Ok [ {[ "race" := PyStr "Stavropol"; "number" := PyInt 1; "type" := PyInt 1 ]} ]
  ∧ [ ({[ "race" := PyStr "Stavropol"; "number" := PyInt 1;
          "type" := PyInt 1 ]} : gmap string pyval) ]
    = record <$> take (length (city_rows two_flights)) (race_rows two_flights)
  ∧ (length (city_rows two_flights) = length (race_rows two_flights)
     ↔ NoDup ((λ r, as_text (race_race_name r)) <$> race_rows two_flights)).
Proof.
  assert (reachable as_text two_flights) as Hreach
    by apply reachable_add_plane, reachable_add_plane, reachable_create_db,
         reachable_absent.
  assert (¬ storage_failure (select_allplanes [] two_flights)) as Hok
    by (apply storage_failure_nil; vm_compute; reflexivity).
  assert (returned (select_allplanes [] two_flights)
          = Ok [ {[ "race" := PyStr "Stavropol"; "number" := PyInt 1;
                    "type" := PyInt 1 ]} ]) as Hret
    by (vm_compute; reflexivity).
  split; [exact Hreach|]. split; [exact Hret|].
  destruct (select_allplanes_lists_one_per_destination as_text [] two_flights _
              Hreach Hok Hret) as (Htake & _ & _ & Hall).
  split; [exact Htake | exact Hall].
Defined.


Lemma format_row_width_witness :
  format_row 1 {[ "race" := PyStr "Новоалександровск"; "number" := PyInt 3234;
                  "type" := PyInt 62 ]}
  = Ok (expected_row 1 {[ "race" := PyStr "Новоалександровск";
                          "number" := PyInt 3234; "type" := PyInt 62 ]})
  ∧ py_len (expected_row 1 {[ "race" := PyStr "Новоалександровск";
                              "number" := PyInt 3234; "type" := PyInt 62 ]})
    = 79
  ∧ String.length (expected_row 1 {[ "race" := PyStr "Новоалександровск";
                                     "number" := PyInt 3234; "type" := PyInt 62 ]})
    = 96.
Proof.
  assert (format_row 1 {[ "race" := PyStr "Новоалександровск"; "number" := PyInt 3234;
                          "type" := PyInt 62 ]}
          = Ok (expected_row 1 {[ "race" := PyStr "Новоалександровск";
                                  "number" := PyInt 3234; "type" := PyInt 62 ]}))
    as Hrow by (vm_compute; reflexivity).
  split; [exact Hrow|].
  destruct (format_row_width 1 _ _ Hrow) as [Hlen _].
  split; [|vm_compute; reflexivity].
  rewrite Hlen. vm_compute. reflexivity.
Defined.


Lemma main_add_first_run_witness :
  valid_utf8 "Новоалександровск" = true ∧ int64 3234 ∧ int64 62
  ∧ database (main as_text [] [] (Subcommand (Add "Новоалександровск" 3234 62)) absent)
    = Store (Some (Table [City 1 "Новоалександровск"] 1))
        (Some (Table [Race 1 "Новоалександровск" 3234 62] 1)).
Proof.
  assert (valid_utf8 "Новоалександровск" = true) as Hv by (vm_compute; reflexivity).
  assert (int64 3234) as Hn by (unfold int64; lia).
  assert (int64 62) as Ht by (unfold int64; lia).
  split; [exact Hv|]. split; [exact Hn|]. split; [exact Ht|].
  destruct (main_add_first_run as_text "Новоалександровск" 3234 62 Hv Hn Ht)
    as [Hmain _].
  rewrite Hmain. reflexivity.
Defined.
